(** * Presage measurement session and vital-sign status mapping

    A shallow embedding of [src/lib/presage.ts] (the simulated rPPG
    measurement session) and of the status helpers of
    [src/components/emi/VitalMonitor.tsx].

    Conventions of the embedding.
    - A JavaScript [number] is a rational [Q]; arithmetic is exact.  Values
      the source passes through [Math.round] or [Math.floor] are integers
      [Z].  [NaN] only arises from destructuring an empty [rgbValues]
      array and is modelled by [None] at that one place.
    - [number | null] is [option].
    - The [let] variables captured by the closures of
      [startPresageMeasurement] are the first fields of [World]; the
      JavaScript runtime (interval timers, the position in the
      [Math.random] stream) and the callback invocations are its other
      fields.
    - [Math.random] and [Math.sin] belong to the runtime, not to the
      repository: they are section variables. *)

From Stdlib Require Import ZArith QArith Qround Qabs Qminmax Bool List String Lia Lqa.
From stdpp Require Import base decidable gmap strings.
Import ListNotations.

Local Open Scope Z_scope.

(** ** Numbers *)

Module Num.

Definition Qltb (x y : Q) : bool := negb (Qle_bool y x).

(** [Math.round]: the nearest integer, ties towards +infinity. *)
Definition round (x : Q) : Z := Qfloor (x + (1 # 2))%Q.

(** [Math.floor]. *)
Definition floor (x : Q) : Z := Qfloor x.

End Num.

(** ** Status mapping ([VitalMonitor.tsx]) *)

Inductive Status := normal | warning | critical | unknown.

Definition getHeartRateStatus (hr : option Q) : Status :=
  match hr with
  | None => unknown
  | Some hr =>
      if Num.Qltb hr 50 || Num.Qltb 120 hr then critical
      else if Num.Qltb hr 60 || Num.Qltb 100 hr then warning
      else normal
  end.

(** ** Data model ([presage.ts]) *)

Inductive PresageErrorCode :=
| INVALID_API_KEY | CAMERA_ACCESS_DENIED | NO_FACE_DETECTED | POOR_LIGHTING
| EXCESSIVE_MOTION | SDK_INIT_FAILED | MEASUREMENT_FAILED | NETWORK_ERROR
| UNKNOWN.

Record PresageError := { code : PresageErrorCode; message : string }.

Inductive MeasurementState :=
| idle | initializing | calibrating | measuring | paused | error.

#[global] Instance MeasurementState_eq_dec : EqDecision MeasurementState.
Proof. solve_decision. Defined.

Record BloodPressure := { systolic : Z; diastolic : Z }.

Record PresageVitalsData := {
  heartRate : option Z;
  heartRateConfidence : Q;
  oxygenSaturation : option Z;
  oxygenSaturationConfidence : Q;
  respiratoryRate : option Z;
  respiratoryRateConfidence : Q;
  bloodPressure : option BloodPressure;
  bloodPressureConfidence : Q;
  stressLevel : option Z;
  hrv : option Z;
  hrvConfidence : Q;
  timestamp : Z
}.

(** Every numeric field the source stores in a [SignalQuality] is either
    the literal 0 or the result of [Math.round], hence an integer. *)
Record SignalQuality := {
  overall : Z;
  faceDetected : bool;
  facePositionQuality : Z;
  lightingQuality : Z;
  motionStability : Z;
  recommendation : option string
}.

Definition INITIAL_SIGNAL_QUALITY : SignalQuality := {|
  overall := 0;
  faceDetected := false;
  facePositionQuality := 0;
  lightingQuality := 0;
  motionStability := 0;
  recommendation := Some "Position your face in the camera frame"%string
|}.

(** The callbacks of [PresageCallbacks]; a value of this type is one
    invocation, with its argument. *)
Inductive Callback :=
| onVitalsUpdate (vitals : PresageVitalsData)
| onSignalQualityChange (quality : SignalQuality)
| onFaceDetectionChange (detected : bool)
| onMeasurementStart
| onMeasurementStop
| onError (e : PresageError)
| onReady.

(** ** Frame analysis *)

Record Pixel := { red : Z; green : Z; blue : Z; alpha : Z }.

(** What [analyzeFrame] finds when it looks at the video element:
    [unavailable] when there is no 2d context or [videoWidth] is 0,
    otherwise the pixels [getImageData] returns for the centre region.
    [getImageData] throws on an empty rectangle, so the buffer it returns
    holds at least one pixel. *)
Inductive VideoFrame :=
| unavailable
| image (p : Pixel) (ps : list Pixel).

Record FrameAnalysis := { frame_faceDetected : bool; rgbValues : list Q }.

Definition total (channel : Pixel -> Z) (pixels : list Pixel) : Z :=
  fold_left (fun acc px => acc + channel px) pixels 0.

Definition analyzeFrame (video : VideoFrame) : FrameAnalysis :=
  match video with
  | unavailable => {| frame_faceDetected := false; rgbValues := [] |}
  | image p ps =>
      let pixels := p :: ps in
      let pixelCount := inject_Z (Z.of_nat (List.length pixels)) in
      let avgR := (inject_Z (total red pixels) / pixelCount)%Q in
      let avgG := (inject_Z (total green pixels) / pixelCount)%Q in
      let avgB := (inject_Z (total blue pixels) / pixelCount)%Q in
      let isSkinTone :=
        Num.Qltb 60 avgR && Num.Qltb 40 avgG && Num.Qltb 20 avgB &&
        Num.Qltb avgG avgR && Num.Qltb avgB avgR &&
        Num.Qltb 15 (Qabs (avgR - avgG)) in
      {| frame_faceDetected := isSkinTone; rgbValues := [avgR; avgG; avgB] |}
  end.

(** ** The expressions of [updateSignalQuality]

    Each definition is one local [const] of the source function; an
    argument [rnd] is the value the [Math.random()] call of that
    expression returned. *)

Module Estimator.

(** [(r + g + b) / 3] after [const [r, g, b] = rgbValues].  On an empty
    array the three are [undefined] and the result is [NaN]: [None]. *)
Definition brightness (rgbValues : list Q) : option Q :=
  match rgbValues with
  | r :: g :: b :: _ => Some ((r + g + b) / 3)%Q
  | _ => None
  end.

(** Comparisons with [NaN] are false, so the conditional takes its
    else-branch there. *)
Definition lightingQuality (brightness : option Q) : Q :=
  Qmin 100 (Qmax 0
    match brightness with
    | Some b =>
        if Num.Qltb 50 b && Num.Qltb b 200
        then (100 - Qabs (b - 125) * (5 # 10))%Q
        else 30%Q
    | None => 30%Q
    end).

Definition motionStability (rnd : Q) : Q := (70 + rnd * 30)%Q.

(** [faceDetected ? 80 + Math.random() * 20 : 0]; [rnd] is only looked
    at when a face is detected. *)
Definition facePositionQuality (faceDetected : bool) (rnd : Q) : Q :=
  if faceDetected then (80 + rnd * 20)%Q else 0%Q.

Definition overall (faceDetected : bool)
    (lightingQuality motionStability facePositionQuality : Q) : Q :=
  if faceDetected
  then (lightingQuality * (3 # 10) + motionStability * (3 # 10)
        + facePositionQuality * (4 # 10))%Q
  else 0%Q.

Definition recommendation (faceDetected : bool)
    (lightingQuality motionStability : Q) : option string :=
  if negb faceDetected
  then Some "Position your face in the center of the frame"%string
  else if Num.Qltb lightingQuality 50
  then Some "Improve lighting conditions for better accuracy"%string
  else if Num.Qltb motionStability 60
  then Some "Please hold still for accurate measurements"%string
  else None.

End Estimator.

(** ** The session's mutable state *)

(** Interval timers are named by the handle [setInterval] returned. *)
Definition TimerId := nat.

(** The [let] variables of [startPresageMeasurement], followed by the part
    of the JavaScript runtime the session acts on: the interval timers
    that are currently scheduled, the next fresh timer handle, the number
    of [Math.random()] calls made so far, and the callback invocations in
    the order they happened. *)
Record World := {
  state : MeasurementState;
  measurementInterval : option TimerId;
  latestVitals : option PresageVitalsData;
  signalQuality : SignalQuality;
  frameCount : Z;
  calibrationComplete : bool;
  timers : gset TimerId;
  nextTimer : TimerId;
  randomCalls : nat;
  calls : list Callback
}.

(** Assignment to one variable. *)

Definition set_state v (w : World) : World :=
  {| state := v;
     measurementInterval := measurementInterval w;
     latestVitals := latestVitals w;
     signalQuality := signalQuality w;
     frameCount := frameCount w;
     calibrationComplete := calibrationComplete w;
     timers := timers w;
     nextTimer := nextTimer w;
     randomCalls := randomCalls w;
     calls := calls w |}.

Definition set_measurementInterval v (w : World) : World :=
  {| state := state w;
     measurementInterval := v;
     latestVitals := latestVitals w;
     signalQuality := signalQuality w;
     frameCount := frameCount w;
     calibrationComplete := calibrationComplete w;
     timers := timers w;
     nextTimer := nextTimer w;
     randomCalls := randomCalls w;
     calls := calls w |}.

Definition set_latestVitals v (w : World) : World :=
  {| state := state w;
     measurementInterval := measurementInterval w;
     latestVitals := v;
     signalQuality := signalQuality w;
     frameCount := frameCount w;
     calibrationComplete := calibrationComplete w;
     timers := timers w;
     nextTimer := nextTimer w;
     randomCalls := randomCalls w;
     calls := calls w |}.

Definition set_signalQuality v (w : World) : World :=
  {| state := state w;
     measurementInterval := measurementInterval w;
     latestVitals := latestVitals w;
     signalQuality := v;
     frameCount := frameCount w;
     calibrationComplete := calibrationComplete w;
     timers := timers w;
     nextTimer := nextTimer w;
     randomCalls := randomCalls w;
     calls := calls w |}.

Definition set_frameCount v (w : World) : World :=
  {| state := state w;
     measurementInterval := measurementInterval w;
     latestVitals := latestVitals w;
     signalQuality := signalQuality w;
     frameCount := v;
     calibrationComplete := calibrationComplete w;
     timers := timers w;
     nextTimer := nextTimer w;
     randomCalls := randomCalls w;
     calls := calls w |}.

Definition set_calibrationComplete v (w : World) : World :=
  {| state := state w;
     measurementInterval := measurementInterval w;
     latestVitals := latestVitals w;
     signalQuality := signalQuality w;
     frameCount := frameCount w;
     calibrationComplete := v;
     timers := timers w;
     nextTimer := nextTimer w;
     randomCalls := randomCalls w;
     calls := calls w |}.

Definition set_timers v (w : World) : World :=
  {| state := state w;
     measurementInterval := measurementInterval w;
     latestVitals := latestVitals w;
     signalQuality := signalQuality w;
     frameCount := frameCount w;
     calibrationComplete := calibrationComplete w;
     timers := v;
     nextTimer := nextTimer w;
     randomCalls := randomCalls w;
     calls := calls w |}.

Definition set_nextTimer v (w : World) : World :=
  {| state := state w;
     measurementInterval := measurementInterval w;
     latestVitals := latestVitals w;
     signalQuality := signalQuality w;
     frameCount := frameCount w;
     calibrationComplete := calibrationComplete w;
     timers := timers w;
     nextTimer := v;
     randomCalls := randomCalls w;
     calls := calls w |}.

Definition set_randomCalls v (w : World) : World :=
  {| state := state w;
     measurementInterval := measurementInterval w;
     latestVitals := latestVitals w;
     signalQuality := signalQuality w;
     frameCount := frameCount w;
     calibrationComplete := calibrationComplete w;
     timers := timers w;
     nextTimer := nextTimer w;
     randomCalls := v;
     calls := calls w |}.

Definition set_calls v (w : World) : World :=
  {| state := state w;
     measurementInterval := measurementInterval w;
     latestVitals := latestVitals w;
     signalQuality := signalQuality w;
     frameCount := frameCount w;
     calibrationComplete := calibrationComplete w;
     timers := timers w;
     nextTimer := nextTimer w;
     randomCalls := randomCalls w;
     calls := v |}.

(** ** Effects

    A computation reads and writes the [World] and returns a value. *)

Definition M (A : Type) : Type := World -> A * World.

Definition ret {A} (a : A) : M A := fun w => (a, w).

Definition bind {A B} (m : M A) (k : A -> M B) : M B :=
  fun w => let (a, w') := m w in k a w'.

Definition get {A} (field : World -> A) : M A := fun w => (field w, w).

Definition assign (update : World -> World) : M unit := fun w => (tt, update w).

Declare Scope session_scope.
Delimit Scope session_scope with session.
Notation "x <- m ;; k" := (bind m (fun x => k))
  (at level 100, m at next level, right associativity) : session_scope.
Notation "m ;; k" := (bind m (fun _ => k))
  (at level 100, right associativity) : session_scope.
Local Open Scope session_scope.

(** [callbacks.f?.(args)]: the invocation is appended to the record of
    calls (a host that registers every callback sees exactly these). *)
Definition invoke (c : Callback) : M unit :=
  fun w => (tt, set_calls (calls w ++ [c]) w).

(** [setInterval(measurementLoop, 1000)]: schedules a new timer and returns
    its handle.  Handles are fresh and truthy. *)
Definition setInterval : M TimerId :=
  fun w =>
    let t := nextTimer w in
    (t, set_nextTimer (S t) (set_timers ({[ t ]} ∪ timers w) w)).

Definition clearInterval (t : TimerId) : M unit :=
  assign (fun w => set_timers (timers w ∖ {[ t ]}) w).

Definition exec {A} (m : M A) (w : World) : World := snd (m w).

(** The value of type [PresageSession] that [startPresageMeasurement]
    resolves to.  Its data fields are below; its methods are the closures
    [start], [pause], [resume], [stop], [getSignalQuality],
    [getLatestVitals] and [isActive] of the section that follows. *)
Module PresageSession.

(** [`presage-${Date.now()}-${Math.random().toString(36).substr(2, 9)}`],
    kept as the two values it is printed from. *)
Record Id := { created : Z; suffix : Q }.

Record t := { sessionId : Id; state : MeasurementState }.

End PresageSession.

(** How [startPresageMeasurement] ends: it throws, after the callbacks in
    [calls] have run, or its promise resolves to a session, leaving the
    world [w]. *)
Inductive Outcome :=
| threw (calls : list Callback) (msg : string)
| resolved (session : PresageSession.t) (w : World).

(** ** The session *)

Section Session.

(** [Math_random n] is what the [n]-th call of [Math.random()] returns
    (counting from 0). *)
Variable Math_random : nat -> Q.
Variable Math_sin : Q -> Q.

Definition random : M Q :=
  fun w =>
    (Math_random (randomCalls w), set_randomCalls (S (randomCalls w)) w).

Definition updateSignalQuality (faceDetected' : bool) (rgbValues : list Q)
  : M unit :=
  let brightness := Estimator.brightness rgbValues in
  let lightingQuality' := Estimator.lightingQuality brightness in
  rnd <- random ;;
  let motionStability' := Estimator.motionStability rnd in
  rnd <- (if faceDetected' then random else ret 0%Q) ;;
  let facePositionQuality' :=
    Estimator.facePositionQuality faceDetected' rnd in
  let overall' :=
    Estimator.overall faceDetected' lightingQuality' motionStability'
      facePositionQuality' in
  let recommendation' :=
    Estimator.recommendation faceDetected' lightingQuality'
      motionStability' in
  assign (set_signalQuality {|
    overall := Num.round overall';
    faceDetected := faceDetected';
    facePositionQuality := Num.round facePositionQuality';
    lightingQuality := Num.round lightingQuality';
    motionStability := Num.round motionStability';
    recommendation := recommendation'
  |}) ;;
  q <- get signalQuality ;;
  invoke (onSignalQualityChange q) ;;
  q <- get signalQuality ;;
  if negb (Bool.eqb faceDetected' (faceDetected q))
  then invoke (onFaceDetectionChange faceDetected')
  else ret tt.

(** [signalQuality.faceDetected ? m : absent] *)
Definition ifFace {A} (m : M A) (absent : A) : M A :=
  q <- get signalQuality ;;
  if faceDetected q then m else ret absent.

Definition generateVitals (now : Z) : M PresageVitalsData :=
  let baseHR := 72%Q in
  n <- get frameCount ;;
  rnd <- random ;;
  let hrVariance :=
    (Math_sin (inject_Z n * (1 # 10)) * 5 + (rnd - (5 # 10)) * 4)%Q in
  heartRate' <-
    ifFace (ret (Some (Num.round (baseHR + hrVariance)))) None ;;
  heartRateConfidence' <-
    ifFace (rnd <- random ;; ret ((85 # 100) + rnd * (1 # 10))%Q) 0%Q ;;
  oxygenSaturation' <-
    ifFace (rnd <- random ;; ret (Some (96 + Num.floor (rnd * 3)))) None ;;
  oxygenSaturationConfidence' <-
    ifFace (rnd <- random ;; ret ((8 # 10) + rnd * (15 # 100))%Q) 0%Q ;;
  respiratoryRate' <-
    ifFace (rnd <- random ;; ret (Some (14 + Num.floor (rnd * 4)))) None ;;
  respiratoryRateConfidence' <-
    ifFace (rnd <- random ;; ret ((75 # 100) + rnd * (2 # 10))%Q) 0%Q ;;
  bloodPressure' <-
    ifFace (rnd1 <- random ;;
            rnd2 <- random ;;
            ret (Some {| systolic := 115 + Num.floor (rnd1 * 15);
                         diastolic := 75 + Num.floor (rnd2 * 10) |}))
           None ;;
  bloodPressureConfidence' <-
    ifFace (rnd <- random ;; ret ((7 # 10) + rnd * (15 # 100))%Q) 0%Q ;;
  stressLevel' <-
    ifFace (rnd <- random ;; ret (Some (Num.floor (30 + rnd * 40)))) None ;;
  hrv' <-
    ifFace (rnd <- random ;; ret (Some (Num.floor (40 + rnd * 30)))) None ;;
  hrvConfidence' <-
    ifFace (rnd <- random ;; ret ((65 # 100) + rnd * (2 # 10))%Q) 0%Q ;;
  ret {|
    heartRate := heartRate';
    heartRateConfidence := heartRateConfidence';
    oxygenSaturation := oxygenSaturation';
    oxygenSaturationConfidence := oxygenSaturationConfidence';
    respiratoryRate := respiratoryRate';
    respiratoryRateConfidence := respiratoryRateConfidence';
    bloodPressure := bloodPressure';
    bloodPressureConfidence := bloodPressureConfidence';
    stressLevel := stressLevel';
    hrv := hrv';
    hrvConfidence := hrvConfidence';
    timestamp := now
  |}.

(** One run of the timer callback; [video] is what the video element
    shows and [now] the clock at that moment. *)
Definition measurementLoop (video : VideoFrame) (now : Z) : M unit :=
  assign (fun w => set_frameCount (frameCount w + 1) w) ;;
  let a := analyzeFrame video in
  updateSignalQuality (frame_faceDetected a) (rgbValues a) ;;
  done <- get calibrationComplete ;;
  n <- get frameCount ;;
  if negb done && (n <? 3)
  then assign (set_state calibrating)
  else
    done <- get calibrationComplete ;;
    (if negb done
     then assign (set_calibrationComplete true) ;;
          assign (set_state measuring) ;;
          invoke onReady
     else ret tt) ;;
    st <- get state ;;
    q <- get signalQuality ;;
    if bool_decide (st = measuring) && faceDetected q
    then v <- generateVitals now ;;
         assign (set_latestVitals (Some v)) ;;
         invoke (onVitalsUpdate v)
    else ret tt.

Definition start : M unit :=
  st <- get state ;;
  if bool_decide (st = measuring) then ret tt
  else
    assign (set_state calibrating) ;;
    assign (set_frameCount 0) ;;
    assign (set_calibrationComplete false) ;;
    invoke onMeasurementStart ;;
    t <- setInterval ;;
    assign (set_measurementInterval (Some t)).

Definition pause : M unit :=
  h <- get measurementInterval ;;
  match h with
  | Some t => clearInterval t ;; assign (set_measurementInterval None)
  | None => ret tt
  end ;;
  assign (set_state paused).

Definition resume : M unit :=
  st <- get state ;;
  if negb (bool_decide (st = paused)) then ret tt
  else
    assign (set_state measuring) ;;
    t <- setInterval ;;
    assign (set_measurementInterval (Some t)).

Definition stop : M unit :=
  h <- get measurementInterval ;;
  match h with
  | Some t => clearInterval t ;; assign (set_measurementInterval None)
  | None => ret tt
  end ;;
  assign (set_state idle) ;;
  invoke onMeasurementStop.

Definition getSignalQuality : M SignalQuality := get signalQuality.

Definition getLatestVitals : M (option PresageVitalsData) :=
  get latestVitals.

Definition isActive : M bool :=
  st <- get state ;;
  ret (bool_decide (st = measuring) || bool_decide (st = calibrating)).

(** The closure variables as their [let] declarations initialise them,
    in a runtime where the session has scheduled no timer yet and
    [Math.random] was called once, for the session id. *)
Definition created : World := {|
  state := initializing;
  measurementInterval := None;
  latestVitals := None;
  signalQuality := INITIAL_SIGNAL_QUALITY;
  frameCount := 0;
  calibrationComplete := false;
  timers := ∅;
  nextTimer := 1%nat;
  randomCalls := 1%nat;
  calls := []
|}.

(** [apiKey] is [process.env.NEXT_PUBLIC_PRESAGE_API_KEY]; [None] and the
    empty string are falsy. *)
Definition startPresageMeasurement (apiKey : option string) (now : Z)
  : Outcome :=
  if match apiKey with None | Some EmptyString => true | _ => false end
  then
    let e := {|
      code := INVALID_API_KEY;
      message := "Presage API key not configured. Add NEXT_PUBLIC_PRESAGE_API_KEY to your environment."
    |} in
    threw [onError e] (message e)
  else
    let sessionId :=
      {| PresageSession.created := now;
         PresageSession.suffix := Math_random 0 |} in
    let w := created in
    let session :=
      {| PresageSession.sessionId := sessionId;
         PresageSession.state := state w |} in
    resolved session (exec start w).

(** ** What can happen to a session

    The host calls one of the four control methods, or the runtime runs
    the callback of timer [t].  A timer that was cleared, or never set,
    does not fire. *)
Inductive Action :=
| call_start
| call_pause
| call_resume
| call_stop
| tick (t : TimerId) (video : VideoFrame) (now : Z).

Definition step (a : Action) : M unit :=
  match a with
  | call_start => start
  | call_pause => pause
  | call_resume => resume
  | call_stop => stop
  | tick t video now =>
      scheduled <- get timers ;;
      if bool_decide (t ∈ scheduled) then measurementLoop video now
      else ret tt
  end.

Fixpoint run (actions : list Action) : M unit :=
  match actions with
  | [] => ret tt
  | a :: rest => step a ;; run rest
  end.

End Session.

(** ** Reading the record of callback invocations *)

Definition is_onReady (c : Callback) : bool :=
  match c with onReady => true | _ => false end.

Definition is_onMeasurementStop (c : Callback) : bool :=
  match c with onMeasurementStop => true | _ => false end.

Definition is_onVitalsUpdate (c : Callback) : bool :=
  match c with onVitalsUpdate _ => true | _ => false end.

Definition is_onFaceDetectionChange (c : Callback) : bool :=
  match c with onFaceDetectionChange _ => true | _ => false end.

Definition is_onSignalQualityChange (c : Callback) : bool :=
  match c with onSignalQualityChange _ => true | _ => false end.

(** How many of the invocations [cs] satisfy [p]. *)
Definition count (p : Callback -> bool) (cs : list Callback) : nat :=
  List.length (List.filter p cs).

(** The actions in which timer [t] fires once for each of [frames]. *)
Definition ticks (t : TimerId) (frames : list (VideoFrame * Z))
  : list (Action) :=
  List.map (fun f => tick t (fst f) (snd f)) frames.

(** Where a session is after [k] ticks of timer [t] since [start()], when
    [onReady] had been called [base] times before: the invariant of the
    calibration. *)
Definition calibration_phase (t : TimerId) (base : nat) (k : nat) (w : World)
  : Prop :=
  t ∈ timers w /\
  if (k <? 3)%nat
  then calibrationComplete w = false /\ frameCount w = Z.of_nat k /\
       state w = calibrating /\ count is_onReady (calls w) = base
  else calibrationComplete w = true /\
       state w = measuring /\ count is_onReady (calls w) = S base.

(** ** Concrete inputs *)

(** A [Math.random] that always returns 0.5 and a [Math.sin] that is 0. *)
Definition always_half : nat -> Q := fun _ => (1 # 2)%Q.
Definition flat_sin : Q -> Q := fun _ => 0%Q.

(** One-pixel frames: the skin-tone frame of the specification's scenario,
    a brighter skin-tone frame, and a frame that is no face. *)
Definition skin_frame : VideoFrame :=
  image {| red := 80; green := 50; blue := 30; alpha := 255 |} [].
Definition bright_skin_frame : VideoFrame :=
  image {| red := 200; green := 100; blue := 54; alpha := 255 |} [].
Definition grey_frame : VideoFrame :=
  image {| red := 90; green := 90; blue := 90; alpha := 255 |} [].

(** The world in which [startPresageMeasurement] leaves a new session. *)
Definition started : World := exec start created.

(** ** Presentation helpers ([presage.ts]) *)

(** [!!process.env.NEXT_PUBLIC_PRESAGE_API_KEY] *)
Definition isPresageConfigured (apiKey : option string) : bool :=
  negb match apiKey with None | Some EmptyString => true | _ => false end.

Definition getSignalQualityLabel (quality : Q) : string :=
  if Qle_bool 80 quality then "Excellent"
  else if Qle_bool 60 quality then "Good"
  else if Qle_bool 40 quality then "Fair"
  else if Num.Qltb 0 quality then "Poor"
  else "No Signal".

Definition getSignalQualityColor (quality : Q) : string :=
  if Qle_bool 80 quality then "text-emerald-400"
  else if Qle_bool 60 quality then "text-cyan-400"
  else if Qle_bool 40 quality then "text-amber-400"
  else if Num.Qltb 0 quality then "text-red-400"
  else "text-slate-500".

(** The class of the quality bar in [VitalMonitor], from
    [signalQuality.overall]. *)
Definition qualityBarColor (overall : Q) : string :=
  if Qle_bool 80 overall then "bg-emerald-500"
  else if Qle_bool 60 overall then "bg-cyan-500"
  else if Qle_bool 40 overall then "bg-amber-500"
  else "bg-red-500".

(** ** Vitals as the hook keeps them ([VitalMonitor.tsx]) *)

Module VitalsData.

Record Pressure := { systolic : Q; diastolic : Q }.

Record t := {
  heartRate : option Q;
  spO2 : option Q;
  respiratoryRate : option Q;
  bloodPressure : option Pressure;
  stressLevel : option Q;
  hrv : option Q;
  lastUpdated : option Z
}.

End VitalsData.

(** The [onVitalsUpdate] callback [useVitals] registers: the value it
    passes to [setVitals]. *)
Definition useVitals_onVitalsUpdate (presageVitals : PresageVitalsData)
  : VitalsData.t :=
  {| VitalsData.heartRate := inject_Z <$> heartRate presageVitals;
     VitalsData.spO2 := inject_Z <$> oxygenSaturation presageVitals;
     VitalsData.respiratoryRate := inject_Z <$> respiratoryRate presageVitals;
     VitalsData.bloodPressure :=
       (fun bp => {| VitalsData.systolic := inject_Z (systolic bp);
                     VitalsData.diastolic := inject_Z (diastolic bp) |})
         <$> bloodPressure presageVitals;
     VitalsData.stressLevel := inject_Z <$> stressLevel presageVitals;
     VitalsData.hrv := inject_Z <$> hrv presageVitals;
     VitalsData.lastUpdated := Some (timestamp presageVitals) |}.

Definition getSpO2Status (spo2 : option Q) : Status :=
  match spo2 with
  | None => unknown
  | Some spo2 =>
      if Num.Qltb spo2 90 then critical
      else if Num.Qltb spo2 95 then warning
      else normal
  end.

Definition getRespiratoryStatus (rr : option Q) : Status :=
  match rr with
  | None => unknown
  | Some rr =>
      if Num.Qltb rr 8 || Num.Qltb 25 rr then critical
      else if Num.Qltb rr 12 || Num.Qltb 20 rr then warning
      else normal
  end.

Definition getBPStatus (bp : option VitalsData.Pressure) : Status :=
  match bp with
  | None => unknown
  | Some bp =>
      if Num.Qltb 180 (VitalsData.systolic bp)
         || Num.Qltb 120 (VitalsData.diastolic bp) then critical
      else if Num.Qltb 140 (VitalsData.systolic bp)
              || Num.Qltb 90 (VitalsData.diastolic bp) then warning
      else normal
  end.

Definition getHRVStatus (hrv : option Q) : Status :=
  match hrv with
  | None => unknown
  | Some hrv =>
      if Num.Qltb hrv 20 then critical
      else if Num.Qltb hrv 30 then warning
      else normal
  end.

Definition getStressStatus (stress : option Q) : Status :=
  match stress with
  | None => unknown
  | Some stress =>
      if Num.Qltb 80 stress then critical
      else if Num.Qltb 60 stress then warning
      else normal
  end.

(** [checkVitalsAbnormalities] returns a [Record<string, boolean>]: an
    object used as a map from the four keys below to flags. *)
Definition checkVitalsAbnormalities (vitals : VitalsData.t)
  : gmap string bool :=
  {[ "heartRateAbnormal"%string :=
       match VitalsData.heartRate vitals with
       | Some hr => Num.Qltb hr 60 || Num.Qltb 100 hr
       | None => false
       end;
     "spO2Abnormal"%string :=
       match VitalsData.spO2 vitals with
       | Some spo2 => Num.Qltb spo2 95
       | None => false
       end;
     "respiratoryRateAbnormal"%string :=
       match VitalsData.respiratoryRate vitals with
       | Some rr => Num.Qltb rr 12 || Num.Qltb 20 rr
       | None => false
       end;
     "bloodPressureAbnormal"%string :=
       match VitalsData.bloodPressure vitals with
       | Some bp => Num.Qltb 140 (VitalsData.systolic bp)
                    || Num.Qltb 90 (VitalsData.diastolic bp)
       | None => false
       end ]}.

(** ** Orderly use of a session *)

(** The timers a session whose handle is [h] means to have scheduled. *)
Definition handle_timers (h : option TimerId) : gset TimerId :=
  match h with
  | Some t => {[ t ]}
  | None => ∅
  end.

(** The scheduled timers are the one the handle names, and there is a
    handle exactly when the session is calibrating or measuring. *)
Definition tidy (w : World) : Prop :=
  timers w = handle_timers (measurementInterval w) /\
  (is_Some (measurementInterval w) <->
   state w = calibrating \/ state w = measuring).

(** [start()] is not called while the session is calibrating, in the
    course of [actions] from [w]. *)
Fixpoint no_start_while_calibrating
    (Math_random : nat -> Q) (Math_sin : Q -> Q)
    (actions : list Action) (w : World) : Prop :=
  match actions with
  | [] => True
  | a :: rest =>
      (a = call_start -> state w <> calibrating) /\
      no_start_while_calibrating Math_random Math_sin rest
        (exec (step Math_random Math_sin a) w)
  end.

(** ** The ranges of the simulated vitals *)

(** Every metric present and inside the range its expression in
    [generateVitals] can reach, every confidence inside its band. *)
Definition simulated_ranges (v : PresageVitalsData) : Prop :=
  (exists hr, heartRate v = Some hr /\ 65 <= hr <= 79) /\
  (exists spo2, oxygenSaturation v = Some spo2 /\ 96 <= spo2 <= 98) /\
  (exists rr, respiratoryRate v = Some rr /\ 14 <= rr <= 17) /\
  (exists bp, bloodPressure v = Some bp /\
              115 <= systolic bp <= 129 /\ 75 <= diastolic bp <= 84) /\
  (exists stress, stressLevel v = Some stress /\ 30 <= stress <= 69) /\
  (exists h, hrv v = Some h /\ 40 <= h <= 69) /\
  ((85 # 100) <= heartRateConfidence v < (95 # 100))%Q /\
  ((80 # 100) <= oxygenSaturationConfidence v < (95 # 100))%Q /\
  ((75 # 100) <= respiratoryRateConfidence v < (95 # 100))%Q /\
  ((70 # 100) <= bloodPressureConfidence v < (85 # 100))%Q /\
  ((65 # 100) <= hrvConfidence v < (85 # 100))%Q.

(** Where the calibration stands after [k] ticks since [start()] when the
    session may have been paused and resumed since: as
    [calibration_phase], but before the third tick the state is left
    open. *)
Definition calibration_progress (t : TimerId) (base : nat) (k : nat)
    (w : World) : Prop :=
  t ∈ timers w /\
  if (k <? 3)%nat
  then calibrationComplete w = false /\ frameCount w = Z.of_nat k /\
       count is_onReady (calls w) = base
  else calibrationComplete w = true /\
       state w = measuring /\ count is_onReady (calls w) = S base.

(** * Properties *)

(** ** Numbers *)

Lemma Qltb_lt x y : Num.Qltb x y = true <-> (x < y)%Q.
Proof.
  unfold Num.Qltb. rewrite negb_true_iff, <- not_true_iff_false, Qle_bool_iff.
  split; [apply Qnot_le_lt | apply Qlt_not_le].
Qed.

Lemma Qltb_ge x y : Num.Qltb x y = false <-> (y <= x)%Q.
Proof. unfold Num.Qltb. rewrite negb_false_iff. apply Qle_bool_iff. Qed.

(** ** Counting callbacks *)

Lemma count_app (p : Callback -> bool) (xs ys : list Callback) :
  count p (xs ++ ys) = (count p xs + count p ys)%nat.
Proof. unfold count. rewrite List.filter_app, List.length_app. reflexivity. Qed.

(** ** Status mapping *)

(** The heart-rate row of the status table, for every value. *)
Lemma getHeartRateStatus_table (hr : Q) :
  getHeartRateStatus (Some hr) =
    if Num.Qltb hr 50 || Num.Qltb 120 hr then critical
    else if Num.Qltb hr 60 || Num.Qltb 100 hr then warning
    else normal.
Proof. reflexivity. Qed.

Lemma getHeartRateStatus_critical (hr : Q) :
  getHeartRateStatus (Some hr) = critical <-> (hr < 50 \/ 120 < hr)%Q.
Proof.
  unfold getHeartRateStatus.
  rewrite <- !Qltb_lt.
  destruct (Num.Qltb hr 50), (Num.Qltb 120 hr), (Num.Qltb hr 60),
    (Num.Qltb 100 hr); cbn; intuition congruence.
Qed.

(** C3, as the claim states it, fails at its first value: a heart rate of
    exactly 50 is not below 50, so [getHeartRateStatus] does not answer
    critical there. *)
Lemma heart_rate_50_not_critical :
  getHeartRateStatus (Some 50%Q) <> critical.
Proof. vm_compute. discriminate. Qed.

(** C3 (amended).  The heart-rate status at the boundary values: 50 maps to
    warning (49 is the nearest integer that maps to critical), 59 to
    warning, 60 to normal, 100 to normal, 101 to warning, 120 to warning,
    121 to critical, and an absent value to unknown. *)
Theorem heart_rate_status_boundaries :
  getHeartRateStatus (Some 49%Q) = critical /\
  getHeartRateStatus (Some 50%Q) = warning /\
  getHeartRateStatus (Some 59%Q) = warning /\
  getHeartRateStatus (Some 60%Q) = normal /\
  getHeartRateStatus (Some 100%Q) = normal /\
  getHeartRateStatus (Some 101%Q) = warning /\
  getHeartRateStatus (Some 120%Q) = warning /\
  getHeartRateStatus (Some 121%Q) = critical /\
  getHeartRateStatus None = unknown.
Proof. repeat split; reflexivity. Qed.

(** ** Lighting quality *)

Section Lighting.

Local Open Scope Q_scope.

(** The clamp of the source, [Math.min(100, Math.max(0, x))]. *)
Lemma clamp_inside (x : Q) : 0 <= x <= 100 -> Qmin 100 (Qmax 0 x) == x.
Proof.
  intros [Hlo Hhi].
  rewrite (Q.max_r 0 x) by exact Hlo.
  apply Q.min_r. exact Hhi.
Qed.

Lemma lightingQuality_inside (b : Q) :
  50 < b < 200 ->
  Estimator.lightingQuality (Some b) ==
    Qmin 100 (Qmax 0 (100 - Qabs (b - 125) * (5 # 10))).
Proof.
  intros [Hlo Hhi]. unfold Estimator.lightingQuality.
  apply Qltb_lt in Hlo, Hhi. rewrite Hlo, Hhi. reflexivity.
Qed.

Lemma lightingQuality_outside (b : Q) :
  b <= 50 \/ 200 <= b -> Estimator.lightingQuality (Some b) = 30.
Proof.
  intros H. unfold Estimator.lightingQuality.
  destruct H as [H | H]; apply Qltb_ge in H; rewrite H;
    rewrite ?andb_false_r; reflexivity.
Qed.

(** Inside the interval the clamp never cuts: the value is the distance
    of [b] from 125, halved, below 100. *)
Lemma lightingQuality_tent (b : Q) :
  50 < b < 200 ->
  Estimator.lightingQuality (Some b) == 100 - Qabs (b - 125) * (1 # 2).
Proof.
  intros H. rewrite (lightingQuality_inside b H).
  destruct H as [Hlo Hhi].
  rewrite clamp_inside.
  - ring.
  - apply (Qabs_case (b - 125)); intros; lra.
Qed.

(** A brightness that is not a number (no frame) also gives the flat 30. *)
Lemma lightingQuality_NaN : Estimator.lightingQuality None = 30.
Proof. reflexivity. Qed.

End Lighting.

(** C7.  For every brightness [b]: when 50 < b < 200, [lightingQuality]
    is 100 - |b - 125| * 0.5 clamped to [0, 100]; it is 100 at b = 125 and
    nowhere more, and falls linearly, by half of the distance, on both
    sides of 125; for b <= 50 or 200 <= b it is the flat 30. *)
Theorem lighting_quality_profile (b : Q) :
  ((50 < b < 200)%Q ->
     (Estimator.lightingQuality (Some b) ==
        Qmin 100 (Qmax 0 (100 - Qabs (b - 125) * (5 # 10))))%Q) /\
  ((50 < b <= 125)%Q ->
     (Estimator.lightingQuality (Some b) == 100 - (125 - b) * (1 # 2))%Q) /\
  ((125 <= b < 200)%Q ->
     (Estimator.lightingQuality (Some b) == 100 - (b - 125) * (1 # 2))%Q) /\
  (Estimator.lightingQuality (Some 125%Q) == 100)%Q /\
  (Estimator.lightingQuality (Some b) <= 100)%Q /\
  ((b <= 50 \/ 200 <= b)%Q -> Estimator.lightingQuality (Some b) = 30%Q).
Proof.
  split; [| split; [| split; [| split; [| split]]]].
  - apply lightingQuality_inside.
  - intros [Hlo Hhi]. rewrite lightingQuality_tent by (split; lra).
    rewrite Qabs_neg by lra. lra.
  - intros [Hlo Hhi]. rewrite lightingQuality_tent by (split; lra).
    rewrite Qabs_pos by lra. lra.
  - reflexivity.
  - unfold Estimator.lightingQuality. apply Q.le_min_l.
  - apply lightingQuality_outside.
Qed.

(** C7 at b = 100 (inside, left of the maximum) and at b = 230 (outside). *)
Lemma lighting_quality_profile_witness :
  (Estimator.lightingQuality (Some 100%Q) == 100 - (125 - 100) * (1 # 2))%Q /\
  Estimator.lightingQuality (Some 230%Q) = 30%Q.
Proof.
  split.
  - apply (lighting_quality_profile 100). split; vm_compute; congruence.
  - apply (lighting_quality_profile 230). right. vm_compute. congruence.
Defined.

(** ** The session: what one step does *)

(** Unfolds the monad and the assignments, and nothing of the arithmetic. *)
Ltac run_session :=
  cbv beta iota zeta delta
    [exec bind ret get assign invoke random setInterval clearInterval ifFace
     set_state set_measurementInterval set_latestVitals set_signalQuality
     set_frameCount set_calibrationComplete set_timers set_nextTimer
     set_randomCalls set_calls
     state measurementInterval latestVitals signalQuality frameCount
     calibrationComplete timers nextTimer randomCalls calls
     faceDetected frame_faceDetected rgbValues fst snd
     negb andb Bool.eqb].

(** [state === "..."] on a known state. *)
Ltac decide_state :=
  first [ rewrite bool_decide_eq_true_2 by reflexivity
        | rewrite bool_decide_eq_false_2 by discriminate ].

(** Every path through [measurementLoop]: with or without a face, before,
    at and after the end of calibration, in each state. *)
Ltac tick_cases w video :=
  destruct w as [st ? ? ? n [] ? ? ? ?];
  unfold measurementLoop, updateSignalQuality;
  generalize (analyzeFrame video); intros [[] rgb];
  run_session;
  destruct (n + 1 <? 3) eqn:Hn; run_session;
  destruct st; repeat (decide_state; run_session).

Section SessionFacts.

Variable Math_random : nat -> Q.
Variable Math_sin : Q -> Q.

Local Abbreviation updateSignalQuality := (updateSignalQuality Math_random).
Local Abbreviation generateVitals := (generateVitals Math_random Math_sin).
Local Abbreviation measurementLoop := (measurementLoop Math_random Math_sin).
Local Abbreviation step := (step Math_random Math_sin).
Local Abbreviation run := (run Math_random Math_sin).

(** [updateSignalQuality] stores a new quality, reports it, and draws one
    random number, or two when a face is detected; it reports nothing
    else. *)
Lemma updateSignalQuality_exec (fd : bool) (rgb : list Q) (w : World) :
  let q := signalQuality (exec (updateSignalQuality fd rgb) w) in
  exec (updateSignalQuality fd rgb) w =
    set_calls (calls w ++ [onSignalQualityChange q])
      (set_signalQuality q
         (set_randomCalls (if fd then S (S (randomCalls w))
                           else S (randomCalls w)) w)).
Proof.
  destruct w, fd; unfold updateSignalQuality; run_session; reflexivity.
Qed.

Lemma updateSignalQuality_quality (fd : bool) (rgb : list Q) (w : World) :
  signalQuality (exec (updateSignalQuality fd rgb) w) =
    let lighting := Estimator.lightingQuality (Estimator.brightness rgb) in
    let motion := Estimator.motionStability (Math_random (randomCalls w)) in
    let position :=
      Estimator.facePositionQuality fd (Math_random (S (randomCalls w))) in
    {| overall := Num.round (Estimator.overall fd lighting motion position);
       faceDetected := fd;
       facePositionQuality := Num.round position;
       lightingQuality := Num.round lighting;
       motionStability := Num.round motion;
       recommendation := Estimator.recommendation fd lighting motion |}.
Proof.
  destruct w, fd; unfold updateSignalQuality; run_session; reflexivity.
Qed.

(** Without a face, [generateVitals] draws one random number and returns
    the reading in which everything is absent. *)
Lemma generateVitals_no_face (now : Z) (w : World) :
  faceDetected (signalQuality w) = false ->
  generateVitals now w =
    ({| heartRate := None; heartRateConfidence := 0;
        oxygenSaturation := None; oxygenSaturationConfidence := 0;
        respiratoryRate := None; respiratoryRateConfidence := 0;
        bloodPressure := None; bloodPressureConfidence := 0;
        stressLevel := None; hrv := None; hrvConfidence := 0;
        timestamp := now |},
     set_randomCalls (S (randomCalls w)) w).
Proof.
  destruct w as [? ? ? [] ? ? ? ? ? ?]. cbn. intros ->.
  unfold generateVitals. run_session. reflexivity.
Qed.

(** [generateVitals] changes nothing but the position in the random
    stream. *)
Lemma generateVitals_world (now : Z) (w : World) :
  exists k, snd (generateVitals now w) = set_randomCalls k w.
Proof.
  destruct w as [? ? ? [? [] ? ? ? ?] ? ? ? ? ? ?];
    unfold generateVitals; run_session; eexists; reflexivity.
Qed.

(** Names the reading [generateVitals] returns on the path at hand, and
    the world it leaves. *)
Ltac vitals_case now :=
  try (match goal with
       | |- context [generateVitals now ?w] =>
           let v := fresh "v" in
           let w3 := fresh "w" in
           let E := fresh "E" in
           let G := fresh "G" in
           destruct (generateVitals_world now w) as [? G];
           destruct (generateVitals now w) as [v w3] eqn:E;
           cbn [snd] in G; subst w3
       end).

(** What a tick leaves alone, and what it always does. *)
Lemma measurementLoop_frame (video : VideoFrame) (now : Z) (w : World) :
  let w' := exec (measurementLoop video now) w in
  frameCount w' = frameCount w + 1 /\
  timers w' = timers w /\
  nextTimer w' = nextTimer w /\
  measurementInterval w' = measurementInterval w.
Proof. tick_cases w video; vitals_case now; run_session; auto. Qed.

(** The state after a tick: calibrating while the calibration is not
    complete and fewer than 3 frames were counted, measuring from the tick
    that completes the calibration, and unchanged once it is complete. *)
Lemma measurementLoop_state (video : VideoFrame) (now : Z) (w : World) :
  let w' := exec (measurementLoop video now) w in
  state w' =
    (if calibrationComplete w then state w
     else if frameCount w + 1 <? 3 then calibrating else measuring) /\
  calibrationComplete w' =
    (calibrationComplete w || negb (frameCount w + 1 <? 3)).
Proof. tick_cases w video; vitals_case now; run_session; auto. Qed.

(** The quality a tick stores is the one [updateSignalQuality] computes
    from the frame. *)
Lemma measurementLoop_quality (video : VideoFrame) (now : Z) (w : World) :
  signalQuality (exec (measurementLoop video now) w) =
  signalQuality
    (exec (updateSignalQuality (frame_faceDetected (analyzeFrame video))
             (rgbValues (analyzeFrame video))) w).
Proof.
  tick_cases w video; vitals_case now; run_session; reflexivity.
Qed.

(** The callbacks of one tick, in order: the quality, [onReady] on the
    tick that completes the calibration, and the vitals exactly when the
    session is then measuring and a face is detected. *)
Lemma measurementLoop_calls (video : VideoFrame) (now : Z) (w : World) :
  let w' := exec (measurementLoop video now) w in
  let ready :=
    if negb (calibrationComplete w) && negb (frameCount w + 1 <? 3)
    then [onReady] else [] in
  let vitals_due :=
    calibrationComplete w' = true /\ state w' = measuring /\
    faceDetected (signalQuality w') = true in
  exists tail,
    calls w' =
      calls w ++ onSignalQualityChange (signalQuality w') :: ready ++ tail /\
    ((tail = [] /\ ~ vitals_due /\ latestVitals w' = latestVitals w) \/
     (exists v, tail = [onVitalsUpdate v] /\ vitals_due /\
                latestVitals w' = Some v)).
Proof.
  tick_cases w video; vitals_case now; run_session;
    eexists; (split; [rewrite <- ?app_assoc; cbn [app]; reflexivity |]);
    first [ left; split; [reflexivity | split; [intuition congruence
                                               | reflexivity]]
          | right; eexists; repeat split; reflexivity ].
Qed.

(** Every path through the four control methods. *)
Ltac control_cases w :=
  destruct w as [st [t|] ? ? ? ? ? ? ? ?];
  unfold start, pause, resume, stop;
  destruct st; run_session; repeat (decide_state; run_session).

Lemma run_cons (a : Action) (rest : list Action) (w : World) :
  exec (run (a :: rest)) w = exec (run rest) (exec (step a) w).
Proof.
  unfold exec. cbn [run]. unfold bind.
  destruct (step a w) as [u w']. reflexivity.
Qed.

Lemma run_nil (w : World) : exec (run []) w = w.
Proof. reflexivity. Qed.

Lemma step_tick (t : TimerId) (video : VideoFrame) (now : Z) (w : World) :
  t ∈ timers w ->
  exec (step (tick t video now)) w = exec (measurementLoop video now) w.
Proof.
  intros H. unfold exec, step, bind, get.
  rewrite bool_decide_eq_true_2 by exact H. reflexivity.
Qed.

Lemma step_tick_cleared (t : TimerId) (video : VideoFrame) (now : Z)
    (w : World) :
  t ∉ timers w -> exec (step (tick t video now)) w = w.
Proof.
  intros H. unfold exec, step, bind, get.
  rewrite bool_decide_eq_false_2 by exact H. reflexivity.
Qed.

(** [start] outside the measuring state: calibration is reset, the start is
    reported, and a new timer is scheduled next to those already there. *)
Lemma start_exec (w : World) :
  state w <> measuring ->
  exec start w =
    set_measurementInterval (Some (nextTimer w))
      (set_nextTimer (S (nextTimer w))
         (set_timers ({[ nextTimer w ]} ∪ timers w)
            (set_calls (calls w ++ [onMeasurementStart])
               (set_calibrationComplete false
                  (set_frameCount 0 (set_state calibrating w)))))).
Proof. control_cases w; intros H; congruence || reflexivity. Qed.

(** [start] in the measuring state does nothing. *)
Lemma start_measuring (w : World) : state w = measuring -> exec start w = w.
Proof. control_cases w; intros H; congruence || reflexivity. Qed.

(** [stop] clears the timer the handle names, if any, and reports the stop
    unconditionally. *)
Lemma stop_exec (w : World) :
  exec stop w =
    set_calls (calls w ++ [onMeasurementStop])
      (set_state idle
         (set_measurementInterval None
            (set_timers
               (match measurementInterval w with
                | Some t => timers w ∖ {[ t ]}
                | None => timers w
                end) w))).
Proof. control_cases w; reflexivity. Qed.

(** The control methods report the start or the stop of the measurement
    and nothing else, and leave the latest vitals alone. *)
Lemma control_calls (a : Action) (w : World) :
  (forall t video now, a <> tick t video now) ->
  latestVitals (exec (step a) w) = latestVitals w /\
  exists new,
    calls (exec (step a) w) = calls w ++ new /\
    (new = [] \/ new = [onMeasurementStart] \/ new = [onMeasurementStop]).
Proof.
  intros Ha. destruct a; try (exfalso; eapply Ha; reflexivity); cbn [step];
    control_cases w;
    (split; [reflexivity |]);
    first [ exists []; rewrite app_nil_r; split; [reflexivity | auto]
          | eexists; split; [reflexivity | auto] ].
Qed.

End SessionFacts.

(** ** Signal quality of a tick *)

(** C6, as the claim states it, fails: the stored sub-scores are rounded
    one by one, and [overall] is rounded from the blend of the unrounded
    ones.  On the first tick of a session, with a frame of brightness 118
    and [Math.random] returning 0.5, the stored quality has face detected,
    lighting 97, motion 85, position 90 and overall 90, while the blend of
    the stored sub-scores rounds to 91. *)
Lemma overall_is_not_blend_of_stored_scores :
  let q := signalQuality
             (exec (measurementLoop always_half flat_sin bright_skin_frame 1000)
                started) in
  faceDetected q = true /\
  overall q = 90 /\
  Num.round (inject_Z (lightingQuality q) * (3 # 10)
             + inject_Z (motionStability q) * (3 # 10)
             + inject_Z (facePositionQuality q) * (4 # 10))%Q = 91 /\
  overall q <>
    Num.round (inject_Z (lightingQuality q) * (3 # 10)
               + inject_Z (motionStability q) * (3 # 10)
               + inject_Z (facePositionQuality q) * (4 # 10))%Q.
Proof. vm_compute. repeat split; congruence. Qed.

(** C6 (amended).  For every tick, the quality it stores has the
    [faceDetected] of the frame; without a face, [overall] and
    [facePositionQuality] are 0; with a face, [overall] is
    round(L * 0.3 + M * 0.3 + P * 0.4) for the sub-scores L (lighting),
    M (motion) and P (face position) before rounding, and the stored
    [lightingQuality], [motionStability] and [facePositionQuality] are
    round(L), round(M) and round(P). *)
Theorem overall_is_blend_of_unrounded_scores
    (Math_random : nat -> Q) (Math_sin : Q -> Q)
    (video : VideoFrame) (now : Z) (w : World) :
  let q := signalQuality
             (exec (measurementLoop Math_random Math_sin video now) w) in
  let L := Estimator.lightingQuality
             (Estimator.brightness (rgbValues (analyzeFrame video))) in
  let M := (70 + Math_random (randomCalls w) * 30)%Q in
  let P := (80 + Math_random (S (randomCalls w)) * 20)%Q in
  faceDetected q = frame_faceDetected (analyzeFrame video) /\
  (faceDetected q = false -> overall q = 0 /\ facePositionQuality q = 0) /\
  (faceDetected q = true ->
     overall q = Num.round (L * (3 # 10) + M * (3 # 10) + P * (4 # 10))%Q /\
     lightingQuality q = Num.round L /\
     motionStability q = Num.round M /\
     facePositionQuality q = Num.round P).
Proof.
  cbv zeta. rewrite measurementLoop_quality, updateSignalQuality_quality.
  cbv zeta. cbn [faceDetected overall facePositionQuality lightingQuality
                 motionStability].
  split; [reflexivity |].
  split; intros ->; repeat split; reflexivity.
Qed.

(** C6 (amended) on the first tick of a session, once without and once
    with a face. *)
Lemma overall_is_blend_of_unrounded_scores_witness :
  overall (signalQuality
             (exec (measurementLoop always_half flat_sin grey_frame 1000)
                started)) = 0 /\
  overall (signalQuality
             (exec (measurementLoop always_half flat_sin bright_skin_frame 1000)
                started)) = 90.
Proof.
  split.
  - apply (overall_is_blend_of_unrounded_scores always_half flat_sin
             grey_frame 1000 started).
    reflexivity.
  - transitivity
      (Num.round
         (Estimator.lightingQuality
            (Estimator.brightness (rgbValues (analyzeFrame bright_skin_frame)))
            * (3 # 10)
          + (70 + always_half (randomCalls started) * 30) * (3 # 10)
          + (80 + always_half (S (randomCalls started)) * 20) * (4 # 10))%Q);
      [| reflexivity].
    apply (overall_is_blend_of_unrounded_scores always_half flat_sin
             bright_skin_frame 1000 started).
    reflexivity.
Defined.

(** C10.  With [Math.random] in [0, 1), the motion stability a tick draws
    lies in [70, 100), the test [motionStability < 60] is false, and the
    stored recommendation is never the hold-still message: it is the
    position-face message, the improve-lighting message, or absent. *)
Theorem hold_still_never_recommended
    (Math_random : nat -> Q) (Math_sin : Q -> Q)
    (video : VideoFrame) (now : Z) (w : World) :
  (forall n, (0 <= Math_random n < 1)%Q) ->
  let q := signalQuality
             (exec (measurementLoop Math_random Math_sin video now) w) in
  let M := Estimator.motionStability (Math_random (randomCalls w)) in
  (70 <= M < 100)%Q /\
  Num.Qltb M 60 = false /\
  recommendation q <>
    Some "Please hold still for accurate measurements"%string /\
  (recommendation q =
     Some "Position your face in the center of the frame"%string \/
   recommendation q =
     Some "Improve lighting conditions for better accuracy"%string \/
   recommendation q = None).
Proof.
  intros Hrange. cbv zeta.
  rewrite measurementLoop_quality, updateSignalQuality_quality.
  cbv zeta. cbn [recommendation].
  destruct (Hrange (randomCalls w)) as [Hlo Hhi].
  assert (HM : (70 <= Estimator.motionStability (Math_random (randomCalls w))
                < 100)%Q)
    by (unfold Estimator.motionStability; split; lra).
  assert (H60 : Num.Qltb
                  (Estimator.motionStability (Math_random (randomCalls w))) 60
                = false)
    by (apply Qltb_ge; destruct HM; lra).
  split; [exact HM |]. split; [exact H60 |].
  unfold Estimator.recommendation. rewrite H60.
  destruct (frame_faceDetected (analyzeFrame video)); cbn [negb].
  - destruct (Num.Qltb _ 50); split; auto; discriminate.
  - split; auto; discriminate.
Qed.

(** C10 on the first tick of a session whose [Math.random] is always 0.5. *)
Lemma hold_still_never_recommended_witness :
  recommendation
    (signalQuality
       (exec (measurementLoop always_half flat_sin skin_frame 1000) started))
  <> Some "Please hold still for accurate measurements"%string.
Proof.
  apply (hold_still_never_recommended always_half flat_sin skin_frame 1000
           started).
  intros n. unfold always_half, Qle, Qlt. simpl. lia.
Defined.

(** ** Vitals *)

(** With a face every metric is present. *)
Lemma vitals_present_with_face
    (Math_random : nat -> Q) (Math_sin : Q -> Q) (now : Z) (w : World) :
  faceDetected (signalQuality w) = true ->
  let v := fst (generateVitals Math_random Math_sin now w) in
  is_Some (heartRate v) /\ is_Some (oxygenSaturation v) /\
  is_Some (respiratoryRate v) /\ is_Some (bloodPressure v) /\
  is_Some (stressLevel v) /\ is_Some (hrv v).
Proof.
  destruct w as [? ? ? [] ? ? ? ? ? ?]. cbn. intros ->.
  unfold generateVitals. run_session. cbn. repeat split; eexists; reflexivity.
Qed.

(** C9.  Whenever [faceDetected] is false, every metric of the reading
    [generateVitals] returns is absent and every confidence is 0; so a
    reading with any metric present comes from a detected face. *)
Theorem vitals_absent_without_face
    (Math_random : nat -> Q) (Math_sin : Q -> Q) (now : Z) (w : World) :
  let v := fst (generateVitals Math_random Math_sin now w) in
  (faceDetected (signalQuality w) = false ->
     heartRate v = None /\ oxygenSaturation v = None /\
     respiratoryRate v = None /\ bloodPressure v = None /\
     stressLevel v = None /\ hrv v = None /\
     heartRateConfidence v = 0%Q /\ oxygenSaturationConfidence v = 0%Q /\
     respiratoryRateConfidence v = 0%Q /\ bloodPressureConfidence v = 0%Q /\
     hrvConfidence v = 0%Q) /\
  (is_Some (heartRate v) \/ is_Some (oxygenSaturation v) \/
   is_Some (respiratoryRate v) \/ is_Some (bloodPressure v) \/
   is_Some (stressLevel v) \/ is_Some (hrv v) ->
     faceDetected (signalQuality w) = true).
Proof.
  cbv zeta. split.
  - intros H. rewrite (generateVitals_no_face _ _ now w H). cbn.
    repeat split; reflexivity.
  - intros H. destruct (faceDetected (signalQuality w)) eqn:Hfd;
      [reflexivity |].
    rewrite (generateVitals_no_face _ _ now w Hfd) in H. cbn in H.
    destruct H as [[? H] | [[? H] | [[? H] | [[? H] | [[? H] | [? H]]]]]];
      discriminate.
Qed.

(** C9 before the first tick, when no face has been detected yet. *)
Lemma vitals_absent_without_face_witness :
  heartRate (fst (generateVitals always_half flat_sin 1000 started)) = None.
Proof.
  apply (vitals_absent_without_face always_half flat_sin 1000 started).
  reflexivity.
Defined.

(** ** Face-detection notification *)

(** No tick reports a face-detection change: the comparison in
    [updateSignalQuality] reads [signalQuality] after the assignment, so it
    compares the new value with itself. *)
Lemma measurementLoop_never_reports_face_change
    (Math_random : nat -> Q) (Math_sin : Q -> Q)
    (video : VideoFrame) (now : Z) (w : World) :
  let w' := exec (measurementLoop Math_random Math_sin video now) w in
  exists new,
    calls w' = calls w ++ new /\
    count is_onSignalQualityChange new = 1%nat /\
    count is_onFaceDetectionChange new = 0%nat.
Proof.
  cbv zeta.
  destruct (measurementLoop_calls Math_random Math_sin video now w)
    as [tail [Hcalls Htail]].
  eexists. split; [exact Hcalls |].
  destruct Htail as [[-> _] | [v [-> _]]];
    destruct (negb (calibrationComplete w) && negb (frameCount w + 1 <? 3));
    split; reflexivity.
Qed.

(** Nor does any other step: over any sequence of control calls and ticks,
    [onFaceDetectionChange] is never invoked. *)
Lemma run_never_reports_face_change
    (Math_random : nat -> Q) (Math_sin : Q -> Q) (actions : list Action) :
  forall w : World,
    count is_onFaceDetectionChange
      (calls (exec (run Math_random Math_sin actions) w)) =
    count is_onFaceDetectionChange (calls w).
Proof.
  induction actions as [| a rest IH]; intros w; [reflexivity |].
  rewrite run_cons, IH.
  destruct a as [| | | | t video now].
  5: {
    destruct (decide (t ∈ timers w)) as [Ht | Ht].
    - rewrite step_tick by exact Ht.
      destruct (measurementLoop_never_reports_face_change
                  Math_random Math_sin video now w)
        as (new & -> & _ & Hnew).
      rewrite count_app, Hnew. lia.
    - rewrite step_tick_cleared by exact Ht. reflexivity. }
  all: match goal with
       | |- context [step _ _ ?a] =>
           destruct (control_calls Math_random Math_sin a w)
             as (_ & new & -> & Hnew); [discriminate |];
           rewrite count_app;
           destruct Hnew as [-> | [-> | ->]]; cbn; lia
       end.
Qed.

(** C1, at the tick the claim singles out.  A session is started and its
    first tick sees the skin-tone frame r=80, g=50, b=30: the stored
    [faceDetected] goes from false to true, the quality is reported once,
    and no face-detection change is reported. *)
Theorem first_face_is_not_reported
    (Math_random : nat -> Q) (Math_sin : Q -> Q) :
  let w := exec (measurementLoop Math_random Math_sin skin_frame 1000)
             started in
  faceDetected (signalQuality started) = false /\
  faceDetected (signalQuality w) = true /\
  count is_onSignalQualityChange (calls w) = 1%nat /\
  count is_onFaceDetectionChange (calls w) = 0%nat.
Proof. cbv zeta. repeat split; vm_compute; reflexivity. Qed.

(** ** The session object *)

(** The [state] field of the session object is the value the variable
    [state] had when the object literal was evaluated, before [start] ran:
    whenever a session is returned, the field reads initializing while the
    session is calibrating. *)
Lemma session_state_is_a_copy
    (Math_random : nat -> Q) (apiKey : option string) (now : Z)
    (session : PresageSession.t) (w : World) :
  startPresageMeasurement Math_random apiKey now = resolved session w ->
  PresageSession.state session = initializing /\ w = started /\
  state w = calibrating.
Proof.
  unfold startPresageMeasurement.
  destruct (match apiKey with
            | None | Some EmptyString => true | _ => false end);
    [discriminate |].
  intros H. injection H as <- <-. repeat split; reflexivity.
Qed.

(** C5, at a session started with an API key.  Reading the [state] field
    of the returned session gives initializing, while the session's current
    state is calibrating and [isActive()] answers true; the current state
    then becomes paused on [pause()] and idle on [stop()], and the field is
    never written. *)
Theorem session_state_field_is_stale (Math_random : nat -> Q) :
  match startPresageMeasurement Math_random (Some "key"%string) 0 with
  | resolved session w =>
      PresageSession.state session = initializing /\
      state w = calibrating /\
      fst (isActive w) = true /\
      state (exec pause w) = paused /\
      state (exec stop w) = idle
  | threw _ _ => False
  end.
Proof. vm_compute. repeat split; reflexivity. Qed.

(** ** Stopping and starting twice *)

(** C2, as the claim states it, fails on a session that was just started:
    two calls of [stop()] report the stop twice, and two calls of [start()]
    on a new session leave two timers scheduled. *)
Lemma stop_twice_start_twice_duplicate :
  count is_onMeasurementStop
    (calls (exec (run always_half flat_sin [call_stop; call_stop]) started))
    <> 1%nat /\
  ~ (size (timers (exec (run always_half flat_sin [call_start; call_start])
                      created))
     <= 1)%nat.
Proof. vm_compute. split; [discriminate | lia]. Qed.

(** C2 (amended).  Two consecutive calls of [stop()] leave the state idle
    and the timer handle empty, with the timer the handle named cleared,
    and each of the two calls reports the stop; a call of [start()], and so
    two consecutive calls, on a session that is measuring changes nothing:
    no timer is scheduled. *)
Theorem stop_twice_and_start_while_measuring
    (Math_random : nat -> Q) (Math_sin : Q -> Q) (w : World) :
  let w2 := exec (run Math_random Math_sin [call_stop; call_stop]) w in
  state w2 = idle /\
  measurementInterval w2 = None /\
  timers w2 = match measurementInterval w with
              | Some t => timers w ∖ {[ t ]}
              | None => timers w
              end /\
  calls w2 = calls w ++ [onMeasurementStop; onMeasurementStop] /\
  exec (run Math_random Math_sin [call_start; call_start])
    (set_state measuring w) = set_state measuring w.
Proof.
  cbv zeta. rewrite !run_cons, !run_nil. cbn [step].
  rewrite (start_measuring (set_state measuring w)) by reflexivity.
  rewrite (start_measuring (set_state measuring w)) by reflexivity.
  rewrite !stop_exec.
  destruct w as [? [t|] ? ? ? ? ? ? ? ?]; run_session;
    rewrite <- ?app_assoc; repeat split; reflexivity.
Qed.

(** ** Calibration *)

Section Calibration.

Variable Math_random : nat -> Q.
Variable Math_sin : Q -> Q.
Variable t : TimerId.

Variable base : nat.

Local Abbreviation step := (step Math_random Math_sin).
Local Abbreviation run := (run Math_random Math_sin).
Local Abbreviation calibration_phase := (calibration_phase t base).

Lemma calibration_phase_tick (k : nat) (video : VideoFrame) (now : Z)
    (w : World) :
  calibration_phase k w ->
  calibration_phase (S k) (exec (step (tick t video now)) w).
Proof.
  intros [Ht H]. rewrite step_tick by exact Ht.
  destruct (measurementLoop_frame Math_random Math_sin video now w)
    as (Hn & Htimers & _ & _).
  destruct (measurementLoop_state Math_random Math_sin video now w)
    as (Hst & Hdone).
  destruct (measurementLoop_calls Math_random Math_sin video now w)
    as (tail & Hcalls & Htail).
  assert (Hcount : count is_onReady tail = 0%nat)
    by (destruct Htail as [[-> _] | [v [-> _]]]; reflexivity).
  split; [rewrite Htimers; exact Ht |].
  rewrite Hst, Hdone, Hn, Hcalls.
  rewrite count_app. change (onSignalQualityChange ?q :: ?l)
    with ([onSignalQualityChange q] ++ l).
  rewrite !count_app, Hcount.
  destruct (k <? 3)%nat eqn:Hk.
  - destruct H as (Hcc & Hfc & _ & <-). rewrite Hcc, Hfc.
    apply Nat.ltb_lt in Hk.
    destruct (S k <? 3)%nat eqn:Hk'.
    + apply Nat.ltb_lt in Hk'.
      assert (E : (Z.of_nat k + 1 <? 3) = true) by (apply Z.ltb_lt; lia).
      rewrite E. cbn. repeat split; try reflexivity; lia.
    + apply Nat.ltb_ge in Hk'.
      assert (E : (Z.of_nat k + 1 <? 3) = false) by (apply Z.ltb_ge; lia).
      rewrite E. cbn. repeat split; try reflexivity; lia.
  - destruct H as (Hcc & Hs & <-). rewrite Hcc, Hs.
    apply Nat.ltb_ge in Hk.
    assert (Hk' : (S k <? 3)%nat = false) by (apply Nat.ltb_ge; lia).
    rewrite Hk'. cbn. repeat split; try reflexivity; lia.
Qed.

Lemma calibration_phase_ticks (frames : list (VideoFrame * Z)) :
  forall (k : nat) (w : World),
    calibration_phase k w ->
    calibration_phase (k + List.length frames)
      (exec (run (ticks t frames)) w).
Proof.
  induction frames as [| [video now] frames IH]; intros k w H.
  - cbn [ticks List.map List.length]. rewrite run_nil, Nat.add_0_r. exact H.
  - cbn [ticks List.map List.length fst snd]. rewrite run_cons.
    replace (k + S (List.length frames))%nat
      with (S k + List.length frames)%nat by lia.
    apply IH, calibration_phase_tick, H.
Qed.

End Calibration.

(** C4.  [start()] on a session that is not measuring puts it in the
    calibrating state and schedules a timer; under the ticks of that timer
    the state is calibrating as long as fewer than 3 ticks have run and
    measuring from the third tick on, and [onReady] has been called not at
    all before the third tick and exactly once from the third tick on. *)
Theorem calibration_takes_three_ticks
    (Math_random : nat -> Q) (Math_sin : Q -> Q)
    (w : World) (frames : list (VideoFrame * Z)) :
  state w <> measuring ->
  let t := nextTimer w in
  let w0 := exec start w in
  let after := exec (run Math_random Math_sin (ticks t frames)) w0 in
  state w0 = calibrating /\
  measurementInterval w0 = Some t /\
  t ∈ timers w0 /\
  state after =
    (if (List.length frames <? 3)%nat then calibrating else measuring) /\
  count is_onReady (calls after) =
    (count is_onReady (calls w)
     + if (List.length frames <? 3)%nat then 0 else 1)%nat.
Proof.
  intros Hst. cbv zeta. rewrite (start_exec w Hst).
  set (w0 := set_measurementInterval _ _).
  assert (H0 : calibration_phase (nextTimer w)
                 (count is_onReady (calls w)) 0 w0).
  { subst w0. destruct w as [? ? ? ? ? ? ? ? ? cs]. run_session.
    split; [set_solver |].
    cbn. repeat split; try reflexivity.
    change (count is_onReady (cs ++ [onMeasurementStart])
            = count is_onReady cs).
    rewrite count_app. cbn. lia. }
  pose proof (calibration_phase_ticks Math_random Math_sin _ _ frames 0 w0 H0)
    as H.
  cbn [Nat.add] in H. destruct H as [_ H].
  split; [subst w0; destruct w; reflexivity |].
  split; [subst w0; destruct w; reflexivity |].
  split; [apply H0 |].
  destruct (List.length frames <? 3)%nat.
  - destruct H as (_ & _ & -> & ->). split; [reflexivity | lia].
  - destruct H as (_ & -> & ->). split; [reflexivity | lia].
Qed.

(** C4 on a new session: calibrating after two ticks, measuring after the
    third. *)
Lemma calibration_takes_three_ticks_witness :
  state (exec (run always_half flat_sin
                 (ticks 1%nat [(skin_frame, 1000); (skin_frame, 2000)]))
           started) = calibrating /\
  state (exec (run always_half flat_sin
                 (ticks 1%nat [(skin_frame, 1000); (skin_frame, 2000);
                               (grey_frame, 3000)]))
           started) = measuring.
Proof.
  split.
  - apply (calibration_takes_three_ticks always_half flat_sin created
             [(skin_frame, 1000); (skin_frame, 2000)]).
    discriminate.
  - apply (calibration_takes_three_ticks always_half flat_sin created
             [(skin_frame, 1000); (skin_frame, 2000); (grey_frame, 3000)]).
    discriminate.
Defined.

(** ** Vitals and the session state *)

(** C8.  Whatever happens to a session, in whatever world: if the state
    it is left in is not measuring (so idle, initializing, calibrating or
    paused), no [onVitalsUpdate] was called and the latest vitals are the
    ones from before; if [onVitalsUpdate] was called, the step was a tick
    and it left the session measuring. *)
Theorem vitals_only_while_measuring
    (Math_random : nat -> Q) (Math_sin : Q -> Q) (a : Action) (w : World) :
  let w' := exec (step Math_random Math_sin a) w in
  exists new,
    calls w' = calls w ++ new /\
    (state w' <> measuring ->
       count is_onVitalsUpdate new = 0%nat /\
       latestVitals w' = latestVitals w) /\
    (count is_onVitalsUpdate new <> 0%nat ->
       state w' = measuring /\ exists t video now, a = tick t video now).
Proof.
  cbv zeta.
  destruct a as [| | | | t video now].
  5: {
    destruct (decide (t ∈ timers w)) as [Ht | Ht].
    - rewrite step_tick by exact Ht.
      destruct (measurementLoop_calls Math_random Math_sin video now w)
        as (tail & Hcalls & Htail).
      eexists. split; [exact Hcalls |].
      destruct (negb (calibrationComplete w) && negb (frameCount w + 1 <? 3));
        destruct Htail as [(-> & _ & Hv) | (v & -> & (_ & Hm & _) & _)];
        cbn; split; intros H; try congruence; try lia; eauto.
    - rewrite step_tick_cleared by exact Ht.
      exists []. rewrite app_nil_r. cbn.
      split; [reflexivity |]. split; [auto | lia]. }
  all: match goal with
       | |- context [step _ _ ?a] =>
           destruct (control_calls Math_random Math_sin a w)
             as (Hv & new & Hcalls & Hnew); [discriminate |];
           exists new; split; [exact Hcalls |];
           destruct Hnew as [-> | [-> | ->]]; cbn;
           (split; [auto | lia])
       end.
Qed.

(** C8 on the first tick of a session, which leaves it calibrating. *)
Lemma vitals_only_while_measuring_witness :
  exists new,
    calls (exec (step always_half flat_sin (tick 1%nat skin_frame 1000))
             started) = calls started ++ new /\
    count is_onVitalsUpdate new = 0%nat.
Proof.
  destruct (vitals_only_while_measuring always_half flat_sin
              (tick 1%nat skin_frame 1000) started)
    as (new & Hcalls & Hidle & _).
  exists new. split; [exact Hcalls |].
  apply Hidle. vm_compute. discriminate.
Defined.

(** * Further properties of the session *)

(** ** Timers *)

(** Every path through [start], [pause], [resume] and [stop]. *)
Ltac method_cases w :=
  destruct w as [st [t|] ? ? ? ? ? ? ? ?];
  unfold start, pause, resume, stop;
  destruct st; run_session; repeat (decide_state; run_session).

Section Timers.

Variable Math_random : nat -> Q.
Variable Math_sin : Q -> Q.

Local Abbreviation step := (step Math_random Math_sin).
Local Abbreviation run := (run Math_random Math_sin).
Local Abbreviation orderly :=
  (no_start_while_calibrating Math_random Math_sin).

Lemma tidy_created : tidy created.
Proof.
  split; [reflexivity |]. cbn. split.
  - intros [? H]. discriminate.
  - intros [H | H]; discriminate.
Qed.

Lemma tidy_step (a : Action) (w : World) :
  tidy w -> (a = call_start -> state w <> calibrating) ->
  tidy (exec (step a) w).
Proof.
  intros [Ht Hh] Hstart. destruct a as [| | | | t video now].
  5: {
    destruct (decide (t ∈ timers w)) as [Hin | Hin];
      [| rewrite step_tick_cleared by exact Hin; split; assumption].
    rewrite step_tick by exact Hin.
    destruct (measurementLoop_frame Math_random Math_sin video now w)
      as (_ & Htimers & _ & Hhandle).
    destruct (measurementLoop_state Math_random Math_sin video now w)
      as (Hst & _).
    split; [rewrite Htimers, Hhandle; exact Ht |].
    rewrite Hhandle, Hst.
    assert (Hsome : is_Some (measurementInterval w)).
    { rewrite Ht in Hin. destruct (measurementInterval w); [eauto |].
      cbn in Hin. set_solver. }
    split; [intros _ | intros _; exact Hsome].
    destruct (calibrationComplete w); [apply Hh, Hsome |].
    destruct (frameCount w + 1 <? 3); auto. }
  all: cbn [step]; revert Ht Hh Hstart; unfold tidy; method_cases w;
    cbn [handle_timers]; intros Ht Hh Hstart.
  all: try (exfalso; apply Hstart; reflexivity).
  all: try (exfalso;
            first [ destruct (proj1 Hh (ex_intro _ _ eq_refl)) as [E | E];
                    discriminate E
                  | destruct (proj2 Hh (or_introl eq_refl)) as [? E];
                    discriminate E
                  | destruct (proj2 Hh (or_intror eq_refl)) as [? E];
                    discriminate E ]).
  all: subst; split;
    [ clear; first [reflexivity | apply set_eq; intros x; set_unfold; tauto]
    | split; [ intros [? E]; try discriminate E; auto
             | intros [E | E]; try discriminate E; eauto ] ].
Qed.

Lemma tidy_run (actions : list Action) :
  forall w : World,
    tidy w -> orderly actions w -> tidy (exec (run actions) w).
Proof.
  induction actions as [| a rest IH]; intros w Hw Ho; [exact Hw |].
  destruct Ho as [Ha Hrest]. rewrite run_cons.
  apply IH; [apply tidy_step; assumption | exact Hrest].
Qed.

(** The methods leave the stored quality, the latest vitals, the frame
    count and the random stream alone. *)
Lemma control_keeps_readings (a : Action) (w : World) :
  (forall t video now, a <> tick t video now) ->
  let w' := exec (step a) w in
  signalQuality w' = signalQuality w /\
  latestVitals w' = latestVitals w /\
  randomCalls w' = randomCalls w.
Proof.
  intros Ha. destruct a; try (exfalso; eapply Ha; reflexivity); cbn [step];
    method_cases w; repeat split; reflexivity.
Qed.

Lemma pause_exec (w : World) :
  exec pause w =
    set_state paused
      (set_measurementInterval None
         (set_timers
            (match measurementInterval w with
             | Some t => timers w ∖ {[ t ]}
             | None => timers w
             end) w)).
Proof. method_cases w; reflexivity. Qed.

Lemma resume_paused (w : World) :
  state w = paused ->
  exec resume w =
    set_measurementInterval (Some (nextTimer w))
      (set_nextTimer (S (nextTimer w))
         (set_timers ({[ nextTimer w ]} ∪ timers w)
            (set_state measuring w))).
Proof. method_cases w; intros H; congruence || reflexivity. Qed.

(** [pause()] then [resume()], in one step. *)
Lemma pause_then_resume_exec (w : World) :
  exec (run [call_pause; call_resume]) w =
    set_measurementInterval (Some (nextTimer w))
      (set_nextTimer (S (nextTimer w))
         (set_timers
            ({[ nextTimer w ]} ∪
             match measurementInterval w with
             | Some t => timers w ∖ {[ t ]}
             | None => timers w
             end)
            (set_state measuring w))).
Proof.
  rewrite !run_cons, run_nil. cbn [step].
  rewrite pause_exec, resume_paused by (destruct w; reflexivity).
  destruct w; reflexivity.
Qed.

Lemma resume_not_paused (w : World) :
  state w <> paused -> exec resume w = w.
Proof. method_cases w; intros H; congruence || reflexivity. Qed.

End Timers.

(** X1.  [pause()] followed by [resume()], whatever the session was doing:
    the timer the handle named is cleared and one new timer is scheduled
    and becomes the handle, the state is measuring, and nothing else
    changes: not the frame count, not the calibration flag, not the stored
    quality or vitals, and no callback runs. *)
Theorem pause_then_resume
    (Math_random : nat -> Q) (Math_sin : Q -> Q) (w : World) :
  exec (run Math_random Math_sin [call_pause; call_resume]) w =
    set_measurementInterval (Some (nextTimer w))
      (set_nextTimer (S (nextTimer w))
         (set_timers
            ({[ nextTimer w ]} ∪
             match measurementInterval w with
             | Some t => timers w ∖ {[ t ]}
             | None => timers w
             end)
            (set_state measuring w))).
Proof.
  rewrite !run_cons, run_nil. cbn [step].
  rewrite pause_exec, resume_paused by (destruct w; reflexivity).
  destruct w; reflexivity.
Qed.

(** X2.  From a tidy world (a new session is one), as long as [start()] is
    not called while the session is calibrating, the scheduled timers are
    always exactly the one timer the handle names: never more than one. *)
Theorem at_most_one_timer
    (Math_random : nat -> Q) (Math_sin : Q -> Q)
    (actions : list Action) (w : World) :
  tidy w ->
  no_start_while_calibrating Math_random Math_sin actions w ->
  let w' := exec (run Math_random Math_sin actions) w in
  timers w' = handle_timers (measurementInterval w') /\
  (size (timers w') <= 1)%nat.
Proof.
  intros Hw Ho. cbv zeta.
  destruct (tidy_run Math_random Math_sin actions w Hw Ho) as [Ht _].
  split; [exact Ht |]. rewrite Ht.
  destruct (measurementInterval _); cbn [handle_timers].
  - rewrite size_singleton. lia.
  - rewrite size_empty. lia.
Qed.

(** X2 on a new session that is started, ticks, is paused, resumed and
    stopped. *)
Lemma at_most_one_timer_witness :
  (size (timers
           (exec (run always_half flat_sin
                    [call_start; tick 1%nat skin_frame 1000; call_pause;
                     call_resume; tick 2%nat skin_frame 2000; call_stop])
              created)) <= 1)%nat.
Proof.
  apply (at_most_one_timer always_half flat_sin
           [call_start; tick 1%nat skin_frame 1000; call_pause;
            call_resume; tick 2%nat skin_frame 2000; call_stop] created).
  - apply tidy_created.
  - cbn [no_start_while_calibrating].
    repeat split; discriminate.
Defined.

(** X3.  Under the same use, [isActive()] answers true exactly when a
    timer is scheduled. *)
Theorem isActive_iff_timer_scheduled
    (Math_random : nat -> Q) (Math_sin : Q -> Q)
    (actions : list Action) (w : World) :
  tidy w ->
  no_start_while_calibrating Math_random Math_sin actions w ->
  let w' := exec (run Math_random Math_sin actions) w in
  fst (isActive w') = true <-> timers w' <> ∅.
Proof.
  intros Hw Ho. cbv zeta.
  destruct (tidy_run Math_random Math_sin actions w Hw Ho) as [Ht Hh].
  rewrite Ht. unfold isActive, bind, get, ret. cbn [fst].
  rewrite orb_true_iff, !bool_decide_eq_true.
  rewrite (or_comm (state _ = measuring)), <- Hh.
  destruct (measurementInterval _) as [t |]; cbn [handle_timers].
  - split; [intros _ | eauto]. intros E.
    assert (Hin : t ∈ ({[ t ]} : gset TimerId))
      by (apply elem_of_singleton; reflexivity).
    rewrite E in Hin. exact (not_elem_of_empty t Hin).
  - split; [intros [? E]; discriminate E | intros E; congruence].
Qed.

(** X3 on a new session after [start()] and after [start()] and
    [pause()]. *)
Lemma isActive_iff_timer_scheduled_witness :
  (fst (isActive (exec (run always_half flat_sin [call_start]) created))
     = true <->
   timers (exec (run always_half flat_sin [call_start]) created) <> ∅) /\
  (fst (isActive
          (exec (run always_half flat_sin [call_start; call_pause]) created))
     = true <->
   timers (exec (run always_half flat_sin [call_start; call_pause]) created)
     <> ∅).
Proof.
  split.
  - apply (isActive_iff_timer_scheduled always_half flat_sin
             [call_start] created).
    + apply tidy_created.
    + cbn [no_start_while_calibrating]. repeat split. discriminate.
  - apply (isActive_iff_timer_scheduled always_half flat_sin
             [call_start; call_pause] created).
    + apply tidy_created.
    + cbn [no_start_while_calibrating]. repeat split; discriminate.
Defined.

(** X4.  In a tidy world, once [stop()] or [pause()] has returned no timer
    is left: whichever timer the runtime might still want to run, the
    session is not touched. *)
Theorem stop_and_pause_cancel_every_tick
    (Math_random : nat -> Q) (Math_sin : Q -> Q) (w : World)
    (t : TimerId) (video : VideoFrame) (now : Z) :
  tidy w ->
  exec (run Math_random Math_sin [call_stop; tick t video now]) w
    = exec stop w /\
  exec (run Math_random Math_sin [call_pause; tick t video now]) w
    = exec pause w.
Proof.
  intros [Ht _]. rewrite !run_cons, !run_nil. cbn [step].
  split; apply step_tick_cleared.
  - rewrite stop_exec. destruct w as [? [h |] ? ? ? ? ? ? ? ?];
      cbn in Ht |- *; rewrite Ht;
      [ rewrite elem_of_difference; tauto | apply not_elem_of_empty ].
  - rewrite pause_exec. destruct w as [? [h |] ? ? ? ? ? ? ? ?];
      cbn in Ht |- *; rewrite Ht;
      [ rewrite elem_of_difference; tauto | apply not_elem_of_empty ].
Qed.

(** X4 on a started session, for the timer [start()] had scheduled. *)
Lemma stop_and_pause_cancel_every_tick_witness :
  exec (run always_half flat_sin [call_stop; tick 1%nat skin_frame 1000])
    started = exec stop started.
Proof.
  apply (stop_and_pause_cancel_every_tick always_half flat_sin started
           1%nat skin_frame 1000).
  apply (tidy_step always_half flat_sin call_start created tidy_created).
  discriminate.
Defined.

(** X5.  [start()], [pause()], [resume()] and [stop()] never touch the
    stored signal quality or the latest vitals: over any sequence of
    method calls, [getSignalQuality()] and [getLatestVitals()] keep
    answering what they answered before. *)
Theorem methods_keep_quality_and_vitals
    (Math_random : nat -> Q) (Math_sin : Q -> Q) (actions : list Action) :
  forall w : World,
    Forall (fun a => forall t video now, a <> tick t video now) actions ->
    let w' := exec (run Math_random Math_sin actions) w in
    fst (getSignalQuality w') = fst (getSignalQuality w) /\
    fst (getLatestVitals w') = fst (getLatestVitals w).
Proof.
  induction actions as [| a rest IH]; intros w Hall; [split; reflexivity |].
  inversion Hall as [| ? ? Ha Hrest]; subst.
  cbv zeta. rewrite run_cons.
  destruct (IH (exec (step Math_random Math_sin a) w) Hrest) as [Hq Hv].
  destruct (control_keeps_readings Math_random Math_sin a w Ha)
    as (Hq' & Hv' & _).
  unfold getSignalQuality, getLatestVitals, get in *. cbn [fst] in *.
  split; congruence.
Qed.

(** X5 on a measuring session that is stopped and started again. *)
Lemma methods_keep_quality_and_vitals_witness :
  let w := exec (run always_half flat_sin
                   (ticks 1%nat [(skin_frame, 1000); (skin_frame, 2000);
                                 (skin_frame, 3000)])) started in
  fst (getLatestVitals
         (exec (run always_half flat_sin [call_stop; call_start]) w))
  = fst (getLatestVitals w).
Proof.
  apply (methods_keep_quality_and_vitals always_half flat_sin
           [call_stop; call_start]).
  repeat constructor; discriminate.
Defined.

(** ** What a tick reports *)

Section Ticks.

Variable Math_random : nat -> Q.
Variable Math_sin : Q -> Q.

Local Abbreviation generateVitals := (generateVitals Math_random Math_sin).
Local Abbreviation measurementLoop := (measurementLoop Math_random Math_sin).

(** When a tick stores a reading, it is one [generateVitals] made while a
    face was detected, at the tick's time. *)
Lemma measurementLoop_reading (video : VideoFrame) (now : Z) (w : World) :
  let w' := exec (measurementLoop video now) w in
  calibrationComplete w' = true -> state w' = measuring ->
  faceDetected (signalQuality w') = true ->
  exists w2,
    faceDetected (signalQuality w2) = true /\
    frameCount w2 = frameCount w + 1 /\
    latestVitals w' = Some (fst (generateVitals now w2)).
Proof.
  tick_cases w video; intros H1 H2 H3; try discriminate;
    match goal with
    | |- context [generateVitals now ?w2] =>
        exists w2; destruct (generateVitals now w2);
        repeat split; reflexivity
    end.
Qed.

End Ticks.

(** X6.  The callbacks of one tick come in a fixed order: the quality the
    tick stored, then [onReady] if the tick completes the calibration, then
    the vitals if the session is measuring with a face detected.  In that
    last case the reading reported is the one [getLatestVitals()] returns
    afterwards; in every other case the latest vitals stay as they
    were. *)
Theorem tick_reports_quality_then_vitals
    (Math_random : nat -> Q) (Math_sin : Q -> Q)
    (video : VideoFrame) (now : Z) (w : World) :
  let w' := exec (measurementLoop Math_random Math_sin video now) w in
  let q := fst (getSignalQuality w') in
  let ready :=
    if negb (calibrationComplete w) && negb (frameCount w + 1 <? 3)
    then [onReady] else [] in
  (state w' = measuring /\ faceDetected q = true ->
     exists v,
       calls w' = calls w ++ onSignalQualityChange q :: ready
                    ++ [onVitalsUpdate v] /\
       fst (getLatestVitals w') = Some v) /\
  (~ (state w' = measuring /\ faceDetected q = true) ->
     calls w' = calls w ++ onSignalQualityChange q :: ready /\
     fst (getLatestVitals w') = fst (getLatestVitals w)).
Proof.
  cbv zeta. unfold getSignalQuality, getLatestVitals, get. cbn [fst].
  destruct (measurementLoop_calls Math_random Math_sin video now w)
    as (tail & Hcalls & Htail).
  destruct (measurementLoop_state Math_random Math_sin video now w)
    as (Hst & Hdone).
  split.
  - intros [Hm Hf].
    destruct Htail as [(_ & Hno & _) | (v & -> & _ & Hv)].
    + exfalso. apply Hno. repeat split; try assumption.
      rewrite Hdone. rewrite Hst in Hm.
      destruct (calibrationComplete w); [reflexivity |].
      destruct (frameCount w + 1 <? 3); [discriminate | reflexivity].
    + exists v. split; assumption.
  - intros Hno.
    destruct Htail as [(-> & _ & Hv) | (v & _ & (_ & Hm & Hf) & _)].
    + rewrite app_nil_r in Hcalls. split; assumption.
    + exfalso. apply Hno. split; assumption.
Qed.

(** X6 on the third tick of a session looking at a face, and on its first
    tick. *)
Lemma tick_reports_quality_then_vitals_witness :
  (exists v,
     fst (getLatestVitals
            (exec (measurementLoop always_half flat_sin skin_frame 3000)
               (exec (run always_half flat_sin
                        (ticks 1%nat [(skin_frame, 1000);
                                      (skin_frame, 2000)])) started)))
     = Some v) /\
  fst (getLatestVitals
         (exec (measurementLoop always_half flat_sin skin_frame 1000)
            started))
  = fst (getLatestVitals started).
Proof.
  split.
  - destruct (tick_reports_quality_then_vitals always_half flat_sin
                skin_frame 3000
                (exec (run always_half flat_sin
                         (ticks 1%nat [(skin_frame, 1000);
                                       (skin_frame, 2000)])) started))
      as [Hyes _].
    destruct Hyes as (v & _ & Hv); [split; vm_compute; reflexivity |].
    exists v. exact Hv.
  - apply (tick_reports_quality_then_vitals always_half flat_sin
             skin_frame 1000 started).
    intros [H _]. vm_compute in H. discriminate H.
Defined.

(** X7.  A tick that finds no frame (no 2d context, or a video of width 0)
    is no error: it stores a quality with no face, overall 0, face position
    0, lighting 30 and the position-face recommendation, reports it, and
    reports no vitals; the latest vitals stay as they were. *)
Theorem tick_without_frame
    (Math_random : nat -> Q) (Math_sin : Q -> Q) (now : Z) (w : World) :
  let w' := exec (measurementLoop Math_random Math_sin unavailable now) w in
  let q := signalQuality w' in
  faceDetected q = false /\ overall q = 0 /\ facePositionQuality q = 0 /\
  lightingQuality q = 30 /\
  motionStability q
    = Num.round (70 + Math_random (randomCalls w) * 30)%Q /\
  recommendation q
    = Some "Position your face in the center of the frame"%string /\
  count is_onVitalsUpdate (calls w') = count is_onVitalsUpdate (calls w) /\
  count is_onSignalQualityChange (calls w')
    = S (count is_onSignalQualityChange (calls w)) /\
  latestVitals w' = latestVitals w.
Proof.
  cbv zeta.
  destruct (measurementLoop_calls Math_random Math_sin unavailable now w)
    as (tail & Hcalls & Htail).
  rewrite Hcalls.
  rewrite measurementLoop_quality, updateSignalQuality_quality in *.
  cbn [analyzeFrame frame_faceDetected rgbValues] in *.
  cbv zeta in *.
  cbn [faceDetected overall facePositionQuality lightingQuality
       motionStability recommendation] in *.
  destruct Htail as [(-> & _ & Hv) | (v & _ & (_ & _ & Hf) & _)];
    [| discriminate Hf].
  repeat split; try reflexivity; try exact Hv.
  - rewrite app_nil_r, count_app.
    destruct (negb (calibrationComplete w) && negb (frameCount w + 1 <? 3));
      cbn; lia.
  - rewrite app_nil_r, count_app.
    destruct (negb (calibrationComplete w) && negb (frameCount w + 1 <? 3));
      cbn; lia.
Qed.

(** ** Ranges of the scores *)

Section Ranges.

Local Open Scope Q_scope.

Lemma floor_between (a b : Z) (x : Q) :
  inject_Z a <= x -> x < inject_Z b -> (a <= Num.floor x < b)%Z.
Proof.
  intros Hlo Hhi. unfold Num.floor. split.
  - rewrite <- (Qfloor_Z a). apply Qfloor_resp_le, Hlo.
  - rewrite Zlt_Qlt. apply Qle_lt_trans with x; [apply Qfloor_le | exact Hhi].
Qed.

Lemma round_between (a b : Z) (x : Q) :
  inject_Z a - (1 # 2) <= x -> x < inject_Z b + (1 # 2) ->
  (a <= Num.round x <= b)%Z.
Proof.
  intros Hlo Hhi. unfold Num.round.
  destruct (floor_between a (b + 1) (x + (1 # 2))) as [H1 H2].
  - lra.
  - rewrite inject_Z_plus. change (inject_Z 1) with 1. lra.
  - unfold Num.floor in *. lia.
Qed.

(** The lighting score is the flat 30 or lies above 62.5; it never leaves
    [30, 100]. *)
Lemma lightingQuality_range (brightness : option Q) :
  30 <= Estimator.lightingQuality brightness <= 100.
Proof.
  destruct brightness as [b |]; [| rewrite lightingQuality_NaN; lra].
  destruct (Qlt_le_dec 50 b) as [Hlo | Hlo];
    [destruct (Qlt_le_dec b 200) as [Hhi | Hhi] |].
  - rewrite lightingQuality_tent by (split; assumption).
    apply (Qabs_case (b - 125)); intros; lra.
  - rewrite lightingQuality_outside by (right; exact Hhi). lra.
  - rewrite lightingQuality_outside by (left; exact Hlo). lra.
Qed.

(** The test [lightingQuality < 50] succeeds exactly when the brightness
    is outside (50, 200). *)
Lemma lightingQuality_low (b : Q) :
  Num.Qltb (Estimator.lightingQuality (Some b)) 50 = true <->
  b <= 50 \/ 200 <= b.
Proof.
  rewrite Qltb_lt. split.
  - intros H.
    destruct (Qlt_le_dec 50 b) as [Hlo | Hlo]; [| left; exact Hlo].
    destruct (Qlt_le_dec b 200) as [Hhi | Hhi]; [| right; exact Hhi].
    exfalso. rewrite lightingQuality_tent in H by (split; assumption).
    revert H. apply (Qabs_case (b - 125)); intros; lra.
  - intros H. rewrite (lightingQuality_outside b H). reflexivity.
Qed.

End Ranges.

(** X8.  With [Math.random] in [0, 1), every score a tick stores is in
    0..100: lighting in 30..100, motion in 70..100, and, when a face is
    detected, face position in 80..100 and overall in 62..100, so that the
    quality label is Excellent or Good; without a face overall is 0 and the
    label is No Signal.  The labels Fair and Poor never describe a stored
    quality. *)
Theorem stored_scores_and_label
    (Math_random : nat -> Q) (Math_sin : Q -> Q)
    (video : VideoFrame) (now : Z) (w : World) :
  (forall n, (0 <= Math_random n < 1)%Q) ->
  let q := signalQuality
             (exec (measurementLoop Math_random Math_sin video now) w) in
  let label := getSignalQualityLabel (inject_Z (overall q)) in
  30 <= lightingQuality q <= 100 /\
  70 <= motionStability q <= 100 /\
  (faceDetected q = true ->
     80 <= facePositionQuality q <= 100 /\ 62 <= overall q <= 100 /\
     (label = "Excellent"%string \/ label = "Good"%string)) /\
  (faceDetected q = false ->
     facePositionQuality q = 0 /\ overall q = 0 /\
     label = "No Signal"%string).
Proof.
  intros Hrange. cbv zeta.
  rewrite measurementLoop_quality, updateSignalQuality_quality. cbv zeta.
  cbn [faceDetected overall facePositionQuality lightingQuality
       motionStability].
  set (L := Estimator.lightingQuality _).
  pose proof (lightingQuality_range
                (Estimator.brightness (rgbValues (analyzeFrame video))))
    as HL. fold L in HL.
  destruct (Hrange (randomCalls w)) as [Hm0 Hm1].
  destruct (Hrange (S (randomCalls w))) as [Hp0 Hp1].
  unfold Estimator.motionStability.
  split; [apply round_between; unfold inject_Z; lra |].
  split; [apply round_between; unfold inject_Z; lra |].
  split; intros ->; cbn [Estimator.facePositionQuality Estimator.overall].
  - split; [apply round_between; unfold inject_Z; lra |].
    assert (Ho : 62 <= Num.round (L * (3 # 10)
                                  + (70 + Math_random (randomCalls w) * 30)
                                    * (3 # 10)
                                  + (80 + Math_random (S (randomCalls w)) * 20)
                                    * (4 # 10))%Q <= 100)
      by (apply round_between; unfold inject_Z; lra).
    split; [exact Ho |].
    unfold getSignalQualityLabel.
    destruct (Qle_bool 80 _) eqn:E80; [left; reflexivity | right].
    assert (E60 : Qle_bool 60 (inject_Z (Num.round
               (L * (3 # 10)
                + (70 + Math_random (randomCalls w) * 30) * (3 # 10)
                + (80 + Math_random (S (randomCalls w)) * 20) * (4 # 10))%Q))
             = true).
    { apply Qle_bool_iff. change 60%Q with (inject_Z 60).
      rewrite <- Zle_Qle. lia. }
    rewrite E60. reflexivity.
  - repeat split; reflexivity.
Qed.

(** X8 on the first tick of a session whose [Math.random] is always 0.5,
    with and without a face. *)
Lemma stored_scores_and_label_witness :
  (62 <= overall (signalQuality
                    (exec (measurementLoop always_half flat_sin skin_frame
                             1000) started)) <= 100) /\
  getSignalQualityLabel
    (inject_Z (overall (signalQuality
                          (exec (measurementLoop always_half flat_sin
                                   grey_frame 1000) started))))
  = "No Signal"%string.
Proof.
  assert (Hrange : forall n, (0 <= always_half n < 1)%Q)
    by (intros n; unfold always_half, Qle, Qlt; simpl; lia).
  split.
  - apply (stored_scores_and_label always_half flat_sin skin_frame 1000
             started Hrange).
    reflexivity.
  - apply (stored_scores_and_label always_half flat_sin grey_frame 1000
             started Hrange).
    reflexivity.
Defined.

(** X9.  With [Math.random] in [0, 1), the recommendation a tick stores
    is decided by the frame alone: the position-face message exactly when
    no face is detected; with a face, the improve-lighting message exactly
    when the brightness is at most 50 or at least 200, and none exactly
    when it is strictly between 50 and 200. *)
Theorem recommendation_by_frame
    (Math_random : nat -> Q) (Math_sin : Q -> Q)
    (video : VideoFrame) (now : Z) (w : World) (b : Q) :
  (forall n, (0 <= Math_random n < 1)%Q) ->
  Estimator.brightness (rgbValues (analyzeFrame video)) = Some b ->
  let q := signalQuality
             (exec (measurementLoop Math_random Math_sin video now) w) in
  (recommendation q
     = Some "Position your face in the center of the frame"%string
   <-> frame_faceDetected (analyzeFrame video) = false) /\
  (recommendation q
     = Some "Improve lighting conditions for better accuracy"%string
   <-> frame_faceDetected (analyzeFrame video) = true /\
       (b <= 50 \/ 200 <= b)%Q) /\
  (recommendation q = None
   <-> frame_faceDetected (analyzeFrame video) = true /\ (50 < b < 200)%Q).
Proof.
  intros Hrange Hb. cbv zeta.
  rewrite measurementLoop_quality, updateSignalQuality_quality. cbv zeta.
  cbn [recommendation]. rewrite Hb.
  destruct (Hrange (randomCalls w)) as [Hlo Hhi].
  assert (H60 : Num.Qltb
                  (Estimator.motionStability (Math_random (randomCalls w))) 60
                = false)
    by (apply Qltb_ge; unfold Estimator.motionStability; lra).
  unfold Estimator.recommendation. rewrite H60.
  destruct (frame_faceDetected (analyzeFrame video)); cbn [negb].
  - pose proof (lightingQuality_low b) as Hlow.
    destruct (Num.Qltb (Estimator.lightingQuality (Some b)) 50).
    + assert (Hout : (b <= 50 \/ 200 <= b)%Q) by (apply Hlow; reflexivity).
      repeat split; try discriminate; try tauto; try (intros [? ?]);
        try discriminate.
      destruct Hout; lra.
    + assert (Hin : ~ (b <= 50 \/ 200 <= b)%Q)
        by (intros H; apply Hlow in H; discriminate H).
      repeat split; try discriminate; try tauto; try (intros [? ?]);
        try discriminate; try tauto.
      * apply Qnot_le_lt. tauto.
      * apply Qnot_le_lt. tauto.
  - repeat split; try discriminate; try tauto; intros [? ?]; discriminate.
Qed.

(** X9 on the first tick of a session: a face at brightness 354/3 = 118. *)
Lemma recommendation_by_frame_witness :
  recommendation
    (signalQuality
       (exec (measurementLoop always_half flat_sin bright_skin_frame 1000)
          started)) = None.
Proof.
  apply (recommendation_by_frame always_half flat_sin bright_skin_frame 1000
           started (354 # 3)%Q).
  - intros n. unfold always_half, Qle, Qlt. simpl. lia.
  - reflexivity.
  - split; [reflexivity |]. split; reflexivity.
Defined.

(** ** The simulated vitals *)

Section Vitals.

Variable Math_random : nat -> Q.
Variable Math_sin : Q -> Q.
Hypothesis random_range : forall n, (0 <= Math_random n < 1)%Q.
Hypothesis sin_range : forall x, (-1 <= Math_sin x <= 1)%Q.

(** Takes the metric the goal is about as the witness. *)
Ltac name_metric :=
  match goal with
  | |- exists m, Some ?x = Some m /\ _ => exists x; split; [reflexivity |]
  end.

(** Brings in the range of the random number, and of the sine, the goal
    is about. *)
Ltac use_ranges :=
  repeat match goal with
         | |- context [Math_random ?n] =>
             lazymatch goal with
             | H : (0 <= Math_random n < 1)%Q |- _ => fail
             | _ => pose proof (random_range n)
             end
         | |- context [Math_sin ?x] =>
             lazymatch goal with
             | H : (-1 <= Math_sin x <= 1)%Q |- _ => fail
             | _ => pose proof (sin_range x)
             end
         end.

Lemma generateVitals_ranges (now : Z) (w : World) :
  faceDetected (signalQuality w) = true ->
  simulated_ranges (fst (generateVitals Math_random Math_sin now w)).
Proof.
  destruct w as [? ? ? [] ? ? ? ? ? ?].
  cbn [signalQuality faceDetected]. intros ->.
  unfold generateVitals. run_session. unfold simulated_ranges.
  cbn [heartRate oxygenSaturation respiratoryRate bloodPressure stressLevel
       hrv heartRateConfidence oxygenSaturationConfidence
       respiratoryRateConfidence bloodPressureConfidence hrvConfidence
       systolic diastolic].
  repeat match goal with |- _ /\ _ => split end.
  all: try (use_ranges; lra).
  - name_metric. use_ranges.
    apply round_between; unfold inject_Z in *; lra.
  - name_metric. use_ranges.
    match goal with
    | |- context [Num.floor ?x] => destruct (floor_between 0 3 x)
    end; [unfold inject_Z in *; lra .. | lia].
  - name_metric. use_ranges.
    match goal with
    | |- context [Num.floor ?x] => destruct (floor_between 0 4 x)
    end; [unfold inject_Z in *; lra .. | lia].
  - name_metric. cbn [systolic diastolic]. use_ranges.
    match goal with
    | |- context [115 + Num.floor ?x] => destruct (floor_between 0 15 x)
    end; [unfold inject_Z in *; lra .. |].
    match goal with
    | |- context [75 + Num.floor ?x] => destruct (floor_between 0 10 x)
    end; [unfold inject_Z in *; lra .. | lia].
  - name_metric. use_ranges.
    match goal with
    | |- context [Num.floor ?x] => destruct (floor_between 30 70 x)
    end; [unfold inject_Z in *; lra .. | lia].
  - name_metric. use_ranges.
    match goal with
    | |- context [Num.floor ?x] => destruct (floor_between 40 70 x)
    end; [unfold inject_Z in *; lra .. | lia].
Qed.

Lemma generateVitals_timestamp (now : Z) (w : World) :
  timestamp (fst (generateVitals Math_random Math_sin now w)) = now.
Proof.
  destruct w as [? ? ? [? [] ? ? ? ?] ? ? ? ? ? ?];
    unfold generateVitals; run_session; reflexivity.
Qed.

(** The reading of a tick that leaves the session measuring with a face
    detected. *)
Lemma measurementLoop_latest (video : VideoFrame) (now : Z) (w : World) :
  let w' := exec (measurementLoop Math_random Math_sin video now) w in
  state w' = measuring -> faceDetected (signalQuality w') = true ->
  exists v,
    latestVitals w' = Some v /\ timestamp v = now /\ simulated_ranges v.
Proof.
  cbv zeta. intros Hm Hf.
  destruct (measurementLoop_state Math_random Math_sin video now w)
    as (Hst & Hdone).
  assert (Hcc : calibrationComplete
                  (exec (measurementLoop Math_random Math_sin video now) w)
                = true).
  { rewrite Hdone. rewrite Hst in Hm.
    destruct (calibrationComplete w); [reflexivity |].
    destruct (frameCount w + 1 <? 3); [discriminate | reflexivity]. }
  destruct (measurementLoop_reading Math_random Math_sin video now w
              Hcc Hm Hf) as (w2 & Hface & _ & Hv).
  eexists. split; [exact Hv |]. split.
  - apply generateVitals_timestamp.
  - apply generateVitals_ranges, Hface.
Qed.

End Vitals.

(** ** Status of the simulated vitals *)

Lemma Qltb_inject_Z (a b : Z) :
  Num.Qltb (inject_Z a) (inject_Z b) = (a <? b).
Proof.
  destruct (a <? b) eqn:E.
  - apply Qltb_lt. rewrite <- Zlt_Qlt. apply Z.ltb_lt, E.
  - apply Qltb_ge. rewrite <- Zle_Qle. apply Z.ltb_ge, E.
Qed.

(** Decides a comparison of an integer metric with a threshold. *)
Ltac compare_metric :=
  repeat match goal with
         | |- context [Num.Qltb (inject_Z ?a) ?q] =>
             lazymatch q with
             | inject_Z _ => fail
             | Qmake ?n 1 => change q with (inject_Z n)
             end
         | |- context [Num.Qltb ?q (inject_Z ?a)] =>
             lazymatch q with
             | inject_Z _ => fail
             | Qmake ?n 1 => change q with (inject_Z n)
             end
         end;
  rewrite ?Qltb_inject_Z;
  repeat match goal with
         | |- context [(?a <? ?b)] =>
             first [ rewrite (proj2 (Z.ltb_ge a b)) by lia
                   | rewrite (proj2 (Z.ltb_lt a b)) by lia ]
         end.

(** What the status helpers and [checkVitalsAbnormalities] make of a
    reading inside the simulated ranges. *)
Lemma simulated_ranges_status (v : PresageVitalsData) :
  simulated_ranges v ->
  let d := useVitals_onVitalsUpdate v in
  getHeartRateStatus (VitalsData.heartRate d) = normal /\
  getSpO2Status (VitalsData.spO2 d) = normal /\
  getRespiratoryStatus (VitalsData.respiratoryRate d) = normal /\
  getBPStatus (VitalsData.bloodPressure d) = normal /\
  getHRVStatus (VitalsData.hrv d) = normal /\
  (getStressStatus (VitalsData.stressLevel d) = normal \/
   getStressStatus (VitalsData.stressLevel d) = warning) /\
  checkVitalsAbnormalities d =
    {[ "heartRateAbnormal"%string := false;
       "spO2Abnormal"%string := false;
       "respiratoryRateAbnormal"%string := false;
       "bloodPressureAbnormal"%string := false ]}.
Proof.
  intros ((hr & Ehr & Hhr) & (sp & Esp & Hsp) & (rr & Err & Hrr) &
          (bp & Ebp & Hsys & Hdia) & (st & Est & Hst) & (h & Eh & Hh) & _).
  cbv zeta. unfold useVitals_onVitalsUpdate, checkVitalsAbnormalities.
  cbn [VitalsData.heartRate VitalsData.spO2 VitalsData.respiratoryRate
       VitalsData.bloodPressure VitalsData.hrv VitalsData.stressLevel].
  rewrite Ehr, Esp, Err, Ebp, Est, Eh. cbn [fmap option_fmap option_map].
  unfold getHeartRateStatus, getSpO2Status, getRespiratoryStatus,
    getBPStatus, getHRVStatus, getStressStatus.
  cbn [VitalsData.systolic VitalsData.diastolic].
  repeat split; try (compare_metric; reflexivity).
  compare_metric.
  destruct (60 <? st); [right | left]; reflexivity.
Qed.


(** The ranges of [always_half] and [flat_sin]. *)
Lemma always_half_range : forall n, (0 <= always_half n < 1)%Q.
Proof. intros n. unfold always_half, Qle, Qlt. simpl. lia. Qed.

Lemma flat_sin_range : forall x, (-1 <= flat_sin x <= 1)%Q.
Proof. intros x. unfold flat_sin, Qle. simpl. lia. Qed.


(** X11.  Under the same assumptions, the reading such a tick stores,
    once the hook has copied it, is never flagged: heart rate, SpO2,
    respiratory rate, blood pressure and HRV have status normal, stress has
    status normal or warning, and [checkVitalsAbnormalities] answers false
    under each of its four keys. *)
Theorem reported_vitals_are_normal
    (Math_random : nat -> Q) (Math_sin : Q -> Q)
    (video : VideoFrame) (now : Z) (w : World) :
  (forall n, (0 <= Math_random n < 1)%Q) ->
  (forall x, (-1 <= Math_sin x <= 1)%Q) ->
  let w' := exec (measurementLoop Math_random Math_sin video now) w in
  state w' = measuring -> faceDetected (signalQuality w') = true ->
  exists v,
    fst (getLatestVitals w') = Some v /\
    let d := useVitals_onVitalsUpdate v in
    getHeartRateStatus (VitalsData.heartRate d) = normal /\
    getSpO2Status (VitalsData.spO2 d) = normal /\
    getRespiratoryStatus (VitalsData.respiratoryRate d) = normal /\
    getBPStatus (VitalsData.bloodPressure d) = normal /\
    getHRVStatus (VitalsData.hrv d) = normal /\
    (getStressStatus (VitalsData.stressLevel d) = normal \/
     getStressStatus (VitalsData.stressLevel d) = warning) /\
    checkVitalsAbnormalities d =
      {[ "heartRateAbnormal"%string := false;
         "spO2Abnormal"%string := false;
         "respiratoryRateAbnormal"%string := false;
         "bloodPressureAbnormal"%string := false ]}.
Proof.
  intros Hr Hs. cbv zeta. intros Hm Hf.
  destruct (measurementLoop_latest Math_random Math_sin Hr Hs video now w
              Hm Hf) as (v & Hv & _ & Hranges).
  exists v. split; [exact Hv |].
  exact (simulated_ranges_status v Hranges).
Qed.

(** X11 on the third tick of a session looking at a face. *)
Lemma reported_vitals_are_normal_witness :
  exists v,
    fst (getLatestVitals
           (exec (measurementLoop always_half flat_sin skin_frame 3000)
              (exec (run always_half flat_sin
                       (ticks 1%nat [(skin_frame, 1000);
                                     (skin_frame, 2000)])) started)))
    = Some v /\
    getHeartRateStatus
      (VitalsData.heartRate (useVitals_onVitalsUpdate v)) = normal.
Proof.
  destruct (reported_vitals_are_normal always_half flat_sin skin_frame 3000
              (exec (run always_half flat_sin
                       (ticks 1%nat [(skin_frame, 1000); (skin_frame, 2000)]))
                 started))
    as (v & Hv & Hhr & _).
  - intros n. unfold always_half, Qle, Qlt. simpl. lia.
  - intros x. unfold flat_sin, Qle. simpl. lia.
  - vm_compute. reflexivity.
  - vm_compute. reflexivity.
  - exists v. split; [exact Hv | exact Hhr].
Defined.

(** ** Abnormality flags and statuses *)

(** Splits on every comparison in sight and turns the outcomes into
    inequalities. *)
Ltac compare_cases :=
  repeat match goal with
         | |- context [Num.Qltb ?a ?b] =>
             let E := fresh "E" in
             destruct (Num.Qltb a b) eqn:E;
             [apply Qltb_lt in E | apply Qltb_ge in E]
         end.

Ltac flag_cases :=
  compare_cases; cbn [orb];
  (split; [intros H; try discriminate H; auto
          | intros [H | H]; try discriminate H; auto]);
  exfalso; lra.

Lemma heart_rate_flag (hr : Q) :
  Num.Qltb hr 60 || Num.Qltb 100 hr = true <->
  getHeartRateStatus (Some hr) = warning \/
  getHeartRateStatus (Some hr) = critical.
Proof. unfold getHeartRateStatus. flag_cases. Qed.

Lemma spO2_flag (spo2 : Q) :
  Num.Qltb spo2 95 = true <->
  getSpO2Status (Some spo2) = warning \/ getSpO2Status (Some spo2) = critical.
Proof. unfold getSpO2Status. flag_cases. Qed.

Lemma respiratory_flag (rr : Q) :
  Num.Qltb rr 12 || Num.Qltb 20 rr = true <->
  getRespiratoryStatus (Some rr) = warning \/
  getRespiratoryStatus (Some rr) = critical.
Proof. unfold getRespiratoryStatus. flag_cases. Qed.

Lemma blood_pressure_flag (bp : VitalsData.Pressure) :
  Num.Qltb 140 (VitalsData.systolic bp)
  || Num.Qltb 90 (VitalsData.diastolic bp) = true <->
  getBPStatus (Some bp) = warning \/ getBPStatus (Some bp) = critical.
Proof. unfold getBPStatus. flag_cases. Qed.

(** The four entries of the object [checkVitalsAbnormalities] returns. *)
Lemma checkVitalsAbnormalities_lookup (d : VitalsData.t) :
  let flags := checkVitalsAbnormalities d in
  flags !! "heartRateAbnormal"%string =
    Some match VitalsData.heartRate d with
         | Some hr => Num.Qltb hr 60 || Num.Qltb 100 hr
         | None => false
         end /\
  flags !! "spO2Abnormal"%string =
    Some match VitalsData.spO2 d with
         | Some spo2 => Num.Qltb spo2 95
         | None => false
         end /\
  flags !! "respiratoryRateAbnormal"%string =
    Some match VitalsData.respiratoryRate d with
         | Some rr => Num.Qltb rr 12 || Num.Qltb 20 rr
         | None => false
         end /\
  flags !! "bloodPressureAbnormal"%string =
    Some match VitalsData.bloodPressure d with
         | Some bp => Num.Qltb 140 (VitalsData.systolic bp)
                      || Num.Qltb 90 (VitalsData.diastolic bp)
         | None => false
         end.
Proof.
  cbv zeta. unfold checkVitalsAbnormalities.
  split; [apply lookup_insert_eq |].
  split; [rewrite lookup_insert_ne by discriminate; apply lookup_insert_eq |].
  split; [do 2 (rewrite lookup_insert_ne by discriminate);
          apply lookup_insert_eq |].
  do 3 (rewrite lookup_insert_ne by discriminate).
  apply lookup_singleton_eq.
Qed.

(** X12.  [checkVitalsAbnormalities] always answers under its four keys,
    and agrees with the status helpers: a flag is true exactly when the
    status of that vital is warning or critical; an absent vital is not
    flagged. *)
Theorem abnormal_iff_warning_or_critical (d : VitalsData.t) :
  let flags := checkVitalsAbnormalities d in
  let flagged (s : Status) := s = warning \/ s = critical in
  dom flags = {[ "heartRateAbnormal"%string; "spO2Abnormal"%string;
                 "respiratoryRateAbnormal"%string;
                 "bloodPressureAbnormal"%string ]} /\
  (flags !! "heartRateAbnormal"%string = Some true <->
     flagged (getHeartRateStatus (VitalsData.heartRate d))) /\
  (flags !! "spO2Abnormal"%string = Some true <->
     flagged (getSpO2Status (VitalsData.spO2 d))) /\
  (flags !! "respiratoryRateAbnormal"%string = Some true <->
     flagged (getRespiratoryStatus (VitalsData.respiratoryRate d))) /\
  (flags !! "bloodPressureAbnormal"%string = Some true <->
     flagged (getBPStatus (VitalsData.bloodPressure d))).
Proof.
  cbv zeta.
  destruct (checkVitalsAbnormalities_lookup d) as (Hhr & Hsp & Hrr & Hbp).
  rewrite Hhr, Hsp, Hrr, Hbp.
  assert (Hsome : forall b : bool, Some b = Some true <-> b = true)
    by (intros b; split; [intros H; injection H; auto | intros ->; auto]).
  assert (Hnever : forall s : Status,
             s = unknown -> false = true <-> s = warning \/ s = critical)
    by (intros s ->; split; [discriminate | intros [H | H]; discriminate H]).
  rewrite !Hsome.
  split; [unfold checkVitalsAbnormalities;
          rewrite !dom_insert_L, dom_singleton_L; set_solver |].
  split; [destruct (VitalsData.heartRate d);
          [apply heart_rate_flag | apply Hnever; reflexivity] |].
  split; [destruct (VitalsData.spO2 d);
          [apply spO2_flag | apply Hnever; reflexivity] |].
  split; [destruct (VitalsData.respiratoryRate d);
          [apply respiratory_flag | apply Hnever; reflexivity] |].
  destruct (VitalsData.bloodPressure d);
    [apply blood_pressure_flag | apply Hnever; reflexivity].
Qed.

(** ** Quality label and colours *)

(** X13.  The label, the text colour and the bar colour of a quality
    always come from the same row: Excellent with emerald, Good with cyan,
    Fair with amber, Poor with red, and No Signal with slate text over a
    red bar.  The row is the band the quality falls in: from 80, from 60,
    from 40, above 0, and the rest. *)
Theorem label_and_colours_agree (quality : Q) :
  let row := (getSignalQualityLabel quality, getSignalQualityColor quality,
              qualityBarColor quality) in
  ((80 <= quality)%Q /\
   row = ("Excellent", "text-emerald-400", "bg-emerald-500")%string) \/
  ((60 <= quality < 80)%Q /\
   row = ("Good", "text-cyan-400", "bg-cyan-500")%string) \/
  ((40 <= quality < 60)%Q /\
   row = ("Fair", "text-amber-400", "bg-amber-500")%string) \/
  ((0 < quality < 40)%Q /\
   row = ("Poor", "text-red-400", "bg-red-500")%string) \/
  ((quality <= 0)%Q /\
   row = ("No Signal", "text-slate-500", "bg-red-500")%string).
Proof.
  cbv zeta.
  unfold getSignalQualityLabel, getSignalQualityColor, qualityBarColor.
  destruct (Qle_bool 80 quality) eqn:E80.
  { left. split; [apply Qle_bool_iff, E80 | reflexivity]. }
  assert (H80 : (quality < 80)%Q).
  { apply Qnot_le_lt. intros H. apply Qle_bool_iff in H. congruence. }
  destruct (Qle_bool 60 quality) eqn:E60.
  { right; left. split; [split; [apply Qle_bool_iff, E60 | exact H80]
                        | reflexivity]. }
  assert (H60 : (quality < 60)%Q).
  { apply Qnot_le_lt. intros H. apply Qle_bool_iff in H. congruence. }
  destruct (Qle_bool 40 quality) eqn:E40.
  { right; right; left.
    split; [split; [apply Qle_bool_iff, E40 | exact H60] | reflexivity]. }
  assert (H40 : (quality < 40)%Q).
  { apply Qnot_le_lt. intros H. apply Qle_bool_iff in H. congruence. }
  destruct (Num.Qltb 0 quality) eqn:E0.
  - right; right; right; left.
    split; [split; [apply Qltb_lt, E0 | exact H40] | reflexivity].
  - right; right; right; right.
    split; [apply Qltb_ge, E0 | reflexivity].
Qed.

(** ** Configuration *)

(** X14.  [startPresageMeasurement] and [isPresageConfigured] read the
    same key and agree: when the key is configured the promise resolves to
    a session that is calibrating, with one timer scheduled, after
    [onMeasurementStart] and nothing else was called; when it is not, the
    call throws after one [onError] with code INVALID_API_KEY, and the
    message thrown is the one reported. *)
Theorem session_iff_configured
    (Math_random : nat -> Q) (apiKey : option string) (now : Z) :
  match startPresageMeasurement Math_random apiKey now with
  | resolved session w =>
      isPresageConfigured apiKey = true /\
      state w = calibrating /\ fst (isActive w) = true /\
      size (timers w) = 1%nat /\ calls w = [onMeasurementStart]
  | threw cs msg =>
      isPresageConfigured apiKey = false /\
      exists e, cs = [onError e] /\ code e = INVALID_API_KEY /\
                msg = message e
  end.
Proof.
  unfold startPresageMeasurement, isPresageConfigured.
  destruct (match apiKey with
            | None | Some EmptyString => true | _ => false end).
  - split; [reflexivity |]. eexists. repeat split; reflexivity.
  - split; [reflexivity |]. vm_compute. repeat split; reflexivity.
Qed.

(** ** Frames *)

Lemma total_step (channel : Pixel -> Z) (pixels : list Pixel) (acc : Z) :
  fold_left (fun a px => a + channel px) pixels acc
  = acc + total channel pixels.
Proof.
  unfold total. revert acc.
  induction pixels as [| px pixels IH]; intros acc; cbn [fold_left].
  - lia.
  - rewrite IH, (IH (0 + channel px)). lia.
Qed.

Lemma total_cons (channel : Pixel -> Z) (px : Pixel) (pixels : list Pixel) :
  total channel (px :: pixels) = channel px + total channel pixels.
Proof. unfold total at 1. cbn [fold_left]. rewrite total_step. lia. Qed.

Lemma total_le (pixels : list Pixel) :
  Forall (fun px => red px <= green px) pixels ->
  total red pixels <= total green pixels.
Proof.
  induction 1 as [| px pixels Hpx _ IH]; [reflexivity |].
  rewrite !total_cons. lia.
Qed.

(** X15.  A frame in which no pixel is redder than it is green, a
    greyscale frame for one, is never taken for a face, whatever its
    size and brightness. *)
Theorem no_face_without_red (p : Pixel) (ps : list Pixel) :
  Forall (fun px => red px <= green px) (p :: ps) ->
  frame_faceDetected (analyzeFrame (image p ps)) = false.
Proof.
  intros Hall. cbn [analyzeFrame frame_faceDetected].
  set (n := inject_Z (Z.of_nat (List.length (p :: ps)))).
  assert (Hn : (0 < n)%Q).
  { subst n. change 0%Q with (inject_Z 0). rewrite <- Zlt_Qlt.
    cbn [List.length]. lia. }
  assert (Hle : (inject_Z (total red (p :: ps)) / n
                 <= inject_Z (total green (p :: ps)) / n)%Q).
  { apply Qmult_le_compat_r.
    - rewrite <- Zle_Qle. apply total_le, Hall.
    - apply Qlt_le_weak, Qinv_lt_0_compat, Hn. }
  apply Qltb_ge in Hle. rewrite Hle.
  rewrite !andb_false_r. reflexivity.
Qed.

(** X15 on a grey frame of two pixels. *)
Lemma no_face_without_red_witness :
  frame_faceDetected
    (analyzeFrame
       (image {| red := 90; green := 90; blue := 90; alpha := 255 |}
          [{| red := 200; green := 200; blue := 200; alpha := 255 |}]))
  = false.
Proof.
  apply no_face_without_red. repeat constructor; cbn; lia.
Defined.

(** ** Calibration across a pause *)

Lemma calibration_phase_progress (t : TimerId) (base k : nat) (w : World) :
  calibration_phase t base k w -> calibration_progress t base k w.
Proof.
  unfold calibration_phase, calibration_progress.
  intros [Ht H]. split; [exact Ht |].
  destruct (k <? 3)%nat; tauto.
Qed.

Section PausedCalibration.

Variable Math_random : nat -> Q.
Variable Math_sin : Q -> Q.

Local Abbreviation step := (step Math_random Math_sin).
Local Abbreviation run := (run Math_random Math_sin).

Lemma run_app (xs ys : list Action) :
  forall w : World, exec (run (xs ++ ys)) w = exec (run ys) (exec (run xs) w).
Proof.
  induction xs as [| a xs IH]; intros w; [reflexivity |].
  cbn [app]. rewrite !run_cons. apply IH.
Qed.

Lemma ticks_nextTimer (t : TimerId) (frames : list (VideoFrame * Z)) :
  forall w : World, nextTimer (exec (run (ticks t frames)) w) = nextTimer w.
Proof.
  induction frames as [| [video now] frames IH]; intros w; [reflexivity |].
  cbn [ticks List.map fst snd]. rewrite run_cons.
  change (List.map _ frames) with (ticks t frames). rewrite IH.
  destruct (decide (t ∈ timers w)) as [Hin | Hin].
  - rewrite step_tick by exact Hin.
    apply (measurementLoop_frame Math_random Math_sin video now w).
  - rewrite step_tick_cleared by exact Hin. reflexivity.
Qed.

(** [pause()] and [resume()] keep the progress, under the new timer. *)
Lemma calibration_progress_pause_resume (t : TimerId) (base k : nat)
    (w : World) :
  calibration_progress t base k w ->
  calibration_progress (nextTimer w) base k
    (exec (run [call_pause; call_resume]) w).
Proof.
  intros [_ H]. rewrite pause_then_resume_exec.
  split.
  - destruct w. run_session. apply elem_of_union_l, elem_of_singleton.
    reflexivity.
  - destruct w. revert H. run_session.
    destruct (k <? 3)%nat; intros H; [exact H |].
    destruct H as (Hcc & _ & Hready). repeat split; assumption.
Qed.

(** A tick moves the progress on, and settles the state. *)
Lemma calibration_progress_tick (t : TimerId) (base k : nat)
    (video : VideoFrame) (now : Z) (w : World) :
  calibration_progress t base k w ->
  calibration_phase t base (S k) (exec (step (tick t video now)) w).
Proof.
  intros [Ht H]. rewrite step_tick by exact Ht.
  destruct (measurementLoop_frame Math_random Math_sin video now w)
    as (Hn & Htimers & _ & _).
  destruct (measurementLoop_state Math_random Math_sin video now w)
    as (Hst & Hdone).
  destruct (measurementLoop_calls Math_random Math_sin video now w)
    as (tail & Hcalls & Htail).
  assert (Hcount : count is_onReady tail = 0%nat)
    by (destruct Htail as [[-> _] | [v [-> _]]]; reflexivity).
  split; [rewrite Htimers; exact Ht |].
  rewrite Hst, Hdone, Hn, Hcalls.
  rewrite count_app. change (onSignalQualityChange ?q :: ?l)
    with ([onSignalQualityChange q] ++ l).
  rewrite !count_app, Hcount.
  destruct (k <? 3)%nat eqn:Hk.
  - destruct H as (Hcc & Hfc & <-). rewrite Hcc, Hfc.
    apply Nat.ltb_lt in Hk.
    destruct (S k <? 3)%nat eqn:Hk'.
    + apply Nat.ltb_lt in Hk'.
      assert (E : (Z.of_nat k + 1 <? 3) = true) by (apply Z.ltb_lt; lia).
      rewrite E. cbn. repeat split; try reflexivity; lia.
    + apply Nat.ltb_ge in Hk'.
      assert (E : (Z.of_nat k + 1 <? 3) = false) by (apply Z.ltb_ge; lia).
      rewrite E. cbn. repeat split; try reflexivity; lia.
  - destruct H as (Hcc & Hs & <-). rewrite Hcc, Hs.
    apply Nat.ltb_ge in Hk.
    assert (Hk' : (S k <? 3)%nat = false) by (apply Nat.ltb_ge; lia).
    rewrite Hk'. cbn. repeat split; try reflexivity; lia.
Qed.

End PausedCalibration.

(** X16.  [pause()] and [resume()] neither restart the calibration nor
    skip it.  After [start()], some ticks, a pause, a resume, and at least
    one tick of the new timer, the session is calibrating if fewer than 3
    ticks have run in all and measuring otherwise, and [onReady] has been
    called once if at least 3 ticks have run in all and not at all
    otherwise. *)
Theorem calibration_survives_pause
    (Math_random : nat -> Q) (Math_sin : Q -> Q) (w : World)
    (before : list (VideoFrame * Z)) (frame : VideoFrame * Z)
    (after : list (VideoFrame * Z)) :
  state w <> measuring ->
  let t := nextTimer w in
  let n := (List.length before + S (List.length after))%nat in
  let w' := exec (run Math_random Math_sin
                    (ticks t before ++ [call_pause; call_resume]
                     ++ ticks (S t) (frame :: after)))
              (exec start w) in
  state w' = (if (n <? 3)%nat then calibrating else measuring) /\
  calibrationComplete w' = negb (n <? 3)%nat /\
  count is_onReady (calls w') =
    (count is_onReady (calls w) + if (n <? 3)%nat then 0 else 1)%nat.
Proof.
  intros Hst. cbv zeta.
  rewrite !run_app. rewrite (start_exec w Hst).
  set (w0 := set_measurementInterval _ _).
  set (base := count is_onReady (calls w)).
  assert (H0 : calibration_phase (nextTimer w) base 0 w0).
  { subst w0 base. destruct w as [? ? ? ? ? ? ? ? ? cs]. run_session.
    split; [apply elem_of_union_l, elem_of_singleton; reflexivity |].
    cbn. repeat split; try reflexivity.
    change (count is_onReady (cs ++ [onMeasurementStart])
            = count is_onReady cs).
    rewrite count_app. cbn. lia. }
  pose proof (calibration_phase_ticks Math_random Math_sin _ _ before 0 w0 H0)
    as H1.
  cbn [Nat.add] in H1.
  set (w1 := exec (run Math_random Math_sin (ticks (nextTimer w) before)) w0)
    in *.
  assert (Hnext : nextTimer w1 = S (nextTimer w)).
  { subst w1. rewrite ticks_nextTimer. subst w0. destruct w. reflexivity. }
  pose proof (calibration_progress_pause_resume Math_random Math_sin _ _ _ w1
                (calibration_phase_progress _ _ _ _ H1)) as H2.
  rewrite Hnext in H2.
  set (w2 := exec (run Math_random Math_sin [call_pause; call_resume]) w1)
    in *.
  destruct frame as [video now].
  cbn [ticks List.map fst snd]. rewrite run_cons.
  change (List.map _ after) with (ticks (S (nextTimer w)) after).
  pose proof (calibration_progress_tick Math_random Math_sin _ _ _ video now
                w2 H2) as H3.
  pose proof (calibration_phase_ticks Math_random Math_sin _ _ after _ _ H3)
    as H4.
  replace (S (List.length before) + List.length after)%nat
    with (List.length before + S (List.length after))%nat in H4 by lia.
  destruct H4 as [_ H4].
  destruct (List.length before + S (List.length after) <? 3)%nat.
  - destruct H4 as (-> & _ & -> & ->). repeat split; try reflexivity. lia.
  - destruct H4 as (-> & -> & ->). repeat split; try reflexivity. lia.
Qed.

(** X16 on a new session: one tick, a pause and a resume, then two ticks
    of the new timer. *)
Lemma calibration_survives_pause_witness :
  state
    (exec (run always_half flat_sin
             (ticks 1%nat [(skin_frame, 1000)]
              ++ [call_pause; call_resume]
              ++ ticks 2%nat [(skin_frame, 2000); (skin_frame, 3000)]))
       (exec start created))
  = measuring.
Proof.
  apply (calibration_survives_pause always_half flat_sin created
           [(skin_frame, 1000)] (skin_frame, 2000) [(skin_frame, 3000)]).
  discriminate.
Defined.
